(** * The multi-factor enrollment wizard of
    [apps/web/src/components/dialogs/multifactordialog.tsx]

    A shallow embedding of the step registries ([steps], [fallbackSteps]),
    of the controller [MultifactorDialog] and of the step bodies that talk
    to the verification adapter ([db.mfa]) and to the phone validator.

    Conventions of the embedding:
    - a React event handler is a function returning the list of commands it
      issues, in order ([Action]); state setters of the dialog
      ([setStep], [setError]) and the [onClose] prop are such commands, and
      [exec] applies them to the dialog state;
    - the arrow functions stored in [Step.component] are defunctionalised:
      a constructor per arrow function, holding the values it captures, and
      [render] gives the element the arrow function returns, with the props
      it forwards;
    - [(...args: any[])] is a list of JavaScript values; the values that
      flow through the wizard are [undefined], a method tag and an
      [Authenticator] object;
    - an awaited call either resolves or rejects ([Outcome]); what the
      external service answers is an input of the handlers;
    - strings are sequences of code units: [String.length] is the
      JavaScript [length] on the ASCII data the wizard handles. *)

From Stdlib Require Import String Ascii List Bool Arith Lia.
Import ListNotations.
Open Scope string_scope.
Open Scope list_scope.

(** ** JavaScript truthiness of the values that are tested *)

Definition truthy_string (s : string) : bool := negb (s =? "")%string.

Definition truthy_opt_string (s : option string) : bool :=
  match s with
  | Some s => truthy_string s
  | None => false
  end.

Definition truthy_opt_bool (b : option bool) : bool :=
  match b with
  | Some b => b
  | None => false
  end.

(** ** Method catalog *)

Inductive AuthenticatorType : Type := app | sms | email.

Definition AuthenticatorType_eqb (a b : AuthenticatorType) : bool :=
  match a, b with
  | app, app | sms, sms | email, email => true
  | _, _ => false
  end.

Inductive Icon : Type := MFAAuthenticator | MFASMS | MFAEmail.

Module Authenticator.
Record t : Type := make
  { type : AuthenticatorType;
    title : string;
    subtitle : string;
    icon : Icon;
    recommended : option bool }.
End Authenticator.

Definition defaultAuthenticators : list AuthenticatorType := [app; sms; email].

Definition Authenticators : list Authenticator.t :=
  [ Authenticator.make app
      "Set up using an Authenticator app"
      "Use an authenticator app like Aegis or Raivo Authenticator to get the authentication codes."
      MFAAuthenticator (Some true);
    Authenticator.make sms
      "Set up using SMS"
      "Notesnook will send you an SMS text with the 2FA code at login."
      MFASMS None;
    Authenticator.make email
      "Set up using Email"
      "Notesnook will send you the 2FA code on your email at login."
      MFAEmail None ].

(** ** Values forwarded between steps *)

Inductive Value : Type :=
| VUndefined
| VMethod (m : AuthenticatorType)
| VAuthenticator (a : Authenticator.t).

(** [args[n]], [undefined] past the end. *)
Definition arg (n : nat) (args : list Value) : Value := nth n args VUndefined.

(** [i !== v] for a method tag [i]. *)
Definition strict_ne (i : AuthenticatorType) (v : Value) : bool :=
  match v with
  | VMethod m => negb (AuthenticatorType_eqb i m)
  | _ => true
  end.

(** [v.title], [v.subtitle], [v.type] on a value that is not [undefined]:
    a string has none of these properties. *)
Definition get_title (v : Value) : option string :=
  match v with
  | VAuthenticator a => Some (Authenticator.title a)
  | _ => None
  end.

Definition get_subtitle (v : Value) : option string :=
  match v with
  | VAuthenticator a => Some (Authenticator.subtitle a)
  | _ => None
  end.

Definition get_type (v : Value) : Value :=
  match v with
  | VAuthenticator a => VMethod (Authenticator.type a)
  | _ => VUndefined
  end.

(** A call returns normally or throws. *)
Inductive Completion (A : Type) : Type :=
| Normal (a : A)
| Throw (message : string).
Arguments Normal {A} a.
Arguments Throw {A} message.

(** ** Step descriptors *)

Inductive StepKeys : Type := choose | setup | recoveryCodes | finish.

Definition StepKeys_eqb (a b : StepKeys) : bool :=
  match a, b with
  | choose, choose | setup, setup
  | recoveryCodes, recoveryCodes | finish, finish => true
  | _, _ => false
  end.

(** The arrow functions of the two registries, with what they capture. *)
Inductive StepComponent : Type :=
| steps_choose_component
| steps_setup_component (authenticator : Value)
| steps_recoveryCodes_component (authenticatorType : Value)
| steps_finish_component (authenticatorType : Value)
| fallbackSteps_choose_component (primaryMethod : Value)
| fallbackSteps_setup_component (authenticator : Value)
| fallbackSteps_finish_component (fallbackMethod primaryMethod : Value).

Module Step.
Record t : Type := make
  { title : option string;
    description : option string;
    component : option StepComponent;
    next : option StepKeys;
    cancellable : option bool }.
End Step.

Definition mfaMethodToPhrase (method : AuthenticatorType) : string :=
  match method with
  | email => "email"
  | app => "authentication app"
  | sms => "phone number"
  end.

(** The template literal of [steps.recoveryCodes]: both comparisons fail on
    a value that is not a method tag. *)
Definition lostDevice (authenticatorType : Value) : string :=
  match authenticatorType with
  | VMethod email => "email"
  | VMethod sms => "phone"
  | _ => "auth app"
  end.

Definition undefined_title : string :=
  "TypeError: Cannot read properties of undefined (reading 'title')".

(** *** [steps] *)

Definition steps_choose : Step.t :=
  {| Step.title := Some "Protect your notes by enabling 2FA";
     Step.description :=
       Some "Choose how you want to receive your authentication codes.";
     Step.component := Some steps_choose_component;
     Step.next := Some setup;
     Step.cancellable := Some true |}.

(** [authenticator.title] throws on [undefined]. *)
Definition steps_setup (authenticator : Value) : Completion Step.t :=
  match authenticator with
  | VUndefined => Throw undefined_title
  | _ =>
    Normal
      {| Step.title := get_title authenticator;
         Step.description := get_subtitle authenticator;
         Step.next := Some recoveryCodes;
         Step.component := Some (steps_setup_component authenticator);
         Step.cancellable := None |}
  end.

Definition steps_recoveryCodes (authenticatorType : Value) : Step.t :=
  {| Step.title := Some "Save your recovery codes";
     Step.description :=
       Some ("If you lose access to your " ++ lostDevice authenticatorType ++
             ", you can login to Notesnook using your recovery codes. Each code can only be used once!")%string;
     Step.component := Some (steps_recoveryCodes_component authenticatorType);
     Step.next := Some finish;
     Step.cancellable := None |}.

Definition steps_finish (authenticatorType : Value) : Step.t :=
  {| Step.title := None;
     Step.description := None;
     Step.component := Some (steps_finish_component authenticatorType);
     Step.next := None;
     Step.cancellable := None |}.

(** *** [fallbackSteps] *)

Definition fallbackSteps_choose (primaryMethod : Value) : Step.t :=
  {| Step.title := Some "Add a fallback 2FA method";
     Step.description :=
       Some "A fallback method helps you get your 2FA codes on an alternative device in case you lose your primary device.";
     Step.component := Some (fallbackSteps_choose_component primaryMethod);
     Step.next := Some setup;
     Step.cancellable := Some true |}.

Definition fallbackSteps_setup (authenticator : Value) : Completion Step.t :=
  match authenticator with
  | VUndefined => Throw undefined_title
  | _ =>
    Normal
      {| Step.title := get_title authenticator;
         Step.description := get_subtitle authenticator;
         Step.next := Some finish;
         Step.cancellable := Some true;
         Step.component := Some (fallbackSteps_setup_component authenticator) |}
  end.

Definition fallbackSteps_finish (fallbackMethod primaryMethod : Value) : Step.t :=
  {| Step.title := None;
     Step.description := None;
     Step.component :=
       Some (fallbackSteps_finish_component fallbackMethod primaryMethod);
     Step.next := None;
     Step.cancellable := None |}.

(** *** Registry lookup

    [steps[key]] and [fallbackSteps[key]] as functions of the argument
    list of the call: parameters are bound by position, a missing one is
    [undefined], extra ones are ignored.  The second table has no
    [recoveryCodes] entry. *)

Inductive Registry : Type := Steps | FallbackSteps.

Definition Creator : Type := list Value -> Completion Step.t.

Definition steps (key : StepKeys) : Creator :=
  fun args =>
    match key with
    | choose => Normal steps_choose
    | setup => steps_setup (arg 0 args)
    | recoveryCodes => Normal (steps_recoveryCodes (arg 0 args))
    | finish => Normal (steps_finish (arg 0 args))
    end.

Definition fallbackSteps (key : StepKeys) : option Creator :=
  match key with
  | choose => Some (fun args => Normal (fallbackSteps_choose (arg 0 args)))
  | setup => Some (fun args => fallbackSteps_setup (arg 0 args))
  | recoveryCodes => None
  | finish =>
    Some (fun args => Normal (fallbackSteps_finish (arg 0 args) (arg 1 args)))
  end.

Definition not_a_function : string :=
  "TypeError: nextStepCreator is not a function".

(** A reference to a table entry, and the call [entry(...arguments)]. *)
Record FactoryCall : Type := mkCall
  { registry : Registry;
    key : StepKeys;
    arguments : list Value }.

Definition invoke (c : FactoryCall) : Completion Step.t :=
  match registry c with
  | Steps => steps (key c) (arguments c)
  | FallbackSteps =>
    match fallbackSteps (key c) with
    | Some creator => creator (arguments c)
    | None => Throw not_a_function
    end
  end.

(** ** The controller: [MultifactorDialog] *)

(** Commands a handler issues.  [Create], [Raise] and [Mfa] change no
    dialog state: they record the factory call made, an exception leaving
    the handler, and a request sent to the verification adapter. *)
Inductive MfaRequest : Type :=
| Enable (authenticator : Value) (code : string)
| EnableFallback (authenticator : Value) (code : string)
| Setup (method : AuthenticatorType) (phoneNumber : option string)
| Codes.

Inductive Effect : Type :=
| SetStep (nextStep : Step.t)
| SetError (error : string)
| OnClose
| Create (call : FactoryCall)
| Raise (message : string)
| Mfa (request : MfaRequest).

Definition Action : Type := list Effect.

(** [MultifactorDialogProps] with the two pieces of React state; [closed]
    records that the [onClose] prop has been called. *)
Record Dialog : Type := mkDialog
  { primaryMethod : option AuthenticatorType;
    step : Step.t;
    error : option string;
    closed : bool }.

Definition exec1 (d : Dialog) (e : Effect) : Dialog :=
  match e with
  | SetStep nextStep => mkDialog (primaryMethod d) nextStep (error d) (closed d)
  | SetError message => mkDialog (primaryMethod d) (step d) (Some message) (closed d)
  | OnClose => mkDialog (primaryMethod d) (step d) (error d) true
  | Create _ | Raise _ | Mfa _ => d
  end.

Definition exec (d : Dialog) (a : Action) : Dialog := fold_left exec1 a d.

(** The initial [useState] values. *)
Definition initialStep (primaryMethod : option AuthenticatorType) : Step.t :=
  match primaryMethod with
  | Some m => fallbackSteps_choose (VMethod m)
  | None => steps_choose
  end.

Definition start (primaryMethod : option AuthenticatorType) : Dialog :=
  mkDialog primaryMethod (initialStep primaryMethod) None false.

(** [nextStepCreator] and the arguments it is called with. *)
Definition nextStepCreator
    (primaryMethod : option AuthenticatorType) (next : StepKeys) : Registry :=
  match primaryMethod with
  | Some _ => if negb (StepKeys_eqb next recoveryCodes) then FallbackSteps else Steps
  | None => Steps
  end.

Definition nextStepArguments
    (primaryMethod : option AuthenticatorType) (args : list Value) : list Value :=
  match primaryMethod with
  | Some m => args ++ [VMethod m]
  | None => args
  end.

Definition nextStepCall
    (primaryMethod : option AuthenticatorType) (next : StepKeys)
    (args : list Value) : FactoryCall :=
  mkCall (nextStepCreator primaryMethod next) next
         (nextStepArguments primaryMethod args).

(** The [onNext] prop handed to the step body. *)
Definition onNext (primaryMethod : option AuthenticatorType) (step : Step.t)
    (args : list Value) : Action :=
  match Step.next step with
  | None => [OnClose]
  | Some next =>
    let call := nextStepCall primaryMethod next args in
    match invoke call with
    | Normal nextStep => [Create call; SetStep nextStep]
    | Throw message => [Create call; Raise message]
    end
  end.

(** [positiveButton] and [negativeButton]: [None] is the [null] that hides
    the button; the negative button carries its [onClick]. *)
Definition positiveButton (step : Step.t) : option string :=
  match Step.next step with
  | Some _ => Some "Continue"
  | None => None
  end.

Definition negativeButton (step : Step.t) : option (string * Action) :=
  if truthy_opt_bool (Step.cancellable step)
  then Some ("Cancel", [OnClose])
  else None.

(** The error text is rendered when [error] is truthy. *)
Definition errorShown (d : Dialog) : bool := truthy_opt_string (error d).

(** What can happen to the dialog: the step body calls one of the three
    props, or the user goes for the negative button. *)
Inductive Event : Type :=
| Next (args : list Value)
| ReportError (message : string)
| Close
| Cancel.

Definition handle (d : Dialog) (ev : Event) : Action :=
  match ev with
  | Next args => onNext (primaryMethod d) (step d) args
  | ReportError message => [SetError message]
  | Close => [OnClose]
  | Cancel =>
    match negativeButton (step d) with
    | Some (_, onClick) => onClick
    | None => []
    end
  end.

Definition dispatch (d : Dialog) (ev : Event) : Dialog := exec d (handle d ev).

Definition advance (d : Dialog) (args : list Value) : Dialog := dispatch d (Next args).
Definition reportError (d : Dialog) (message : string) : Dialog :=
  dispatch d (ReportError message).
Definition cancel (d : Dialog) : Dialog := dispatch d Cancel.

Definition run (d : Dialog) (evs : list Event) : Dialog := fold_left dispatch evs d.

(** ** Step bodies *)

(** [StepComponentProps]: [onClose] and [onError] are optional. *)
Module Props.
Record t : Type := make
  { onNext : list Value -> Action;
    onClose : option Action;
    onError : option (string -> Action) }.
End Props.

(** The props [MultifactorDialog] hands to [step.component]. *)
Definition dialogProps (d : Dialog) : Props.t :=
  {| Props.onNext := onNext (primaryMethod d) (step d);
     Props.onError := Some (fun message => [SetError message]);
     Props.onClose := Some [OnClose] |}.

(** The props [RecoveryCodesDialog] hands to its only step. *)
Definition recoveryCodesDialogProps : Props.t :=
  {| Props.onNext := fun _ => [];
     Props.onError := Some (fun message => [SetError message]);
     Props.onClose := None |}.

(** An arrow function that destructures [onNext] alone forwards nothing
    else. *)
Definition onlyOnNext (p : Props.t) : Props.t :=
  {| Props.onNext := Props.onNext p;
     Props.onClose := None;
     Props.onError := None |}.

Inductive Element : Type :=
| ChooseAuthenticator (props : Props.t) (authenticators : list AuthenticatorType)
| AuthenticatorSelector (props : Props.t) (authenticator : Value) (isFallback : bool)
| BackupRecoveryCodes (props : Props.t) (authenticatorType : Value)
| TwoFactorEnabled (props : Props.t) (authenticatorType : Value)
| Fallback2FAEnabled (props : Props.t) (fallbackMethod primaryMethod : Value).

(** What each arrow function of the registries returns.  The two [setup]
    functions exist only for a captured value that is not [undefined]
    (their factory throws otherwise), so [authenticator.type] is
    [get_type]. *)
Definition render (c : StepComponent) (p : Props.t) : Element :=
  match c with
  | steps_choose_component =>
    ChooseAuthenticator (onlyOnNext p) defaultAuthenticators
  | steps_setup_component authenticator =>
    AuthenticatorSelector (onlyOnNext p) (get_type authenticator) false
  | steps_recoveryCodes_component authenticatorType =>
    BackupRecoveryCodes p authenticatorType
  | steps_finish_component authenticatorType =>
    TwoFactorEnabled p authenticatorType
  | fallbackSteps_choose_component primaryMethod =>
    ChooseAuthenticator (onlyOnNext p)
      (filter (fun i => strict_ne i primaryMethod) defaultAuthenticators)
  | fallbackSteps_setup_component authenticator =>
    AuthenticatorSelector (onlyOnNext p) (get_type authenticator) true
  | fallbackSteps_finish_component fallbackMethod primaryMethod =>
    Fallback2FAEnabled
      {| Props.onNext := Props.onNext p;
         Props.onClose := Props.onClose p;
         Props.onError := None |}
      fallbackMethod primaryMethod
  end.

(** [step.component && <step.component ... />] *)
Definition body (d : Dialog) : option Element :=
  match Step.component (step d) with
  | Some c => Some (render c (dialogProps d))
  | None => None
  end.

(** [f && f(x)] on an optional callback. *)
Definition callOnError (p : Props.t) (message : string) : Action :=
  match Props.onError p with
  | Some onError => onError message
  | None => []
  end.

Definition callOnClose (p : Props.t) : Action :=
  match Props.onClose p with
  | Some onClose => onClose
  | None => []
  end.

(** [try { a } catch (e) { handler(e.message) }]: the commands issued
    before the exception stand. *)
Fixpoint tryCatch (a : Action) (handler : string -> Action) : Action :=
  match a with
  | [] => []
  | Raise message :: _ => handler message
  | e :: rest => e :: tryCatch rest handler
  end.

(** *** [ChooseAuthenticator] *)

Definition findAuthenticator (a : AuthenticatorType) : Value :=
  match find (fun auth => AuthenticatorType_eqb (Authenticator.type auth) a)
             Authenticators with
  | Some auth => VAuthenticator auth
  | None => VUndefined
  end.

Definition filteredAuthenticators (authenticators : list AuthenticatorType)
  : list Value :=
  map findAuthenticator authenticators.

(** The form's [onSubmit]; [selected] is the session-state index. *)
Definition ChooseAuthenticator_onSubmit
    (p : Props.t) (authenticators : list AuthenticatorType) (selected : nat)
  : Action :=
  let authenticator := nth selected (filteredAuthenticators authenticators) VUndefined in
  Props.onNext p [authenticator].

(** *** The verification adapter [db.mfa] *)

Inductive Outcome (A : Type) : Type :=
| Resolved (a : A)
| Rejected (message : string).
Arguments Resolved {A} a.
Arguments Rejected {A} message.

(** What the external service answers.  [codes] may resolve to
    [undefined] ([None]); an array, also an empty one, is [Some]. *)
Module MFA.
Record t : Type := make
  { enable : Value -> string -> Outcome unit;
    enableFallback : Value -> string -> Outcome unit;
    setup : AuthenticatorType -> option string -> Outcome unit;
    codes : Outcome (option (list string)) }.
End MFA.

Definition undefined_mfa (property : string) : string :=
  ("TypeError: Cannot read properties of undefined (reading '" ++ property ++ "')")%string.

(** *** [AuthenticatorSelector] and [VerifyAuthenticatorForm] *)

(** [onSubmitCode]: [db.mfa?.enableFallback] skips the call when [db.mfa]
    is missing, [db.mfa!.enable] throws inside the [try]. *)
Definition onSubmitCode (mfa : option MFA.t) (p : Props.t)
    (authenticator : Value) (isFallback : bool) (code : string) : Action :=
  let attempt : Action * Outcome unit :=
    match mfa, isFallback with
    | Some m, true =>
      ([Mfa (EnableFallback authenticator code)],
       MFA.enableFallback m authenticator code)
    | None, true => ([], Resolved tt)
    | Some m, false =>
      ([Mfa (Enable authenticator code)], MFA.enable m authenticator code)
    | None, false => ([], Rejected (undefined_mfa "enable"))
    end in
  fst attempt ++
  match snd attempt with
  | Resolved _ => tryCatch (Props.onNext p [authenticator]) (callOnError p)
  | Rejected message => callOnError p message
  end.

(** The form's [onSubmit]; [code] is [form.get("code")], [None] for
    [null]. *)
Definition VerifyAuthenticatorForm_onSubmit
    (code : option string) (onSubmitCode : string -> Action) : Action :=
  match code with
  | None => []
  | Some c =>
    if negb (truthy_string c) || negb (String.length c =? 6)%nat
    then []
    else onSubmitCode c
  end.

(** Submitting the form of the [setup] body: a form is rendered for the
    three method tags only. *)
Definition AuthenticatorSelector_onSubmit (mfa : option MFA.t) (p : Props.t)
    (authenticator : Value) (isFallback : bool) (code : option string) : Action :=
  match authenticator with
  | VMethod _ =>
    VerifyAuthenticatorForm_onSubmit code
      (onSubmitCode mfa p authenticator isFallback)
  | _ => []
  end.

(** *** [SetupSMS] *)

(** The result of the external [phone] validator. *)
Module Phone.
Record result : Type := make
  { isValid : bool;
    phoneNumber : option string }.
End Phone.

Module SetupSMS.
(** The [useState] cells and the [enabled] flag of the resend timer. *)
Record state : Type := make
  { isSending : bool;
    error : option string;
    phoneNumber : option string;
    enabled : bool }.

Definition initial (enabled : bool) : state := make false None None enabled.

Definition setError (message : string) (st : state) : state :=
  make (isSending st) (Some message) (phoneNumber st) (enabled st).

Definition setPhoneNumber (number : option string) (st : state) : state :=
  make (isSending st) (error st) number (enabled st).

Definition setEnabled (b : bool) (st : state) : state :=
  make (isSending st) (error st) (phoneNumber st) b.

Definition setIsSending (b : bool) (st : state) : state :=
  make b (error st) (phoneNumber st) (enabled st).

(** [onChange] of the phone field; [number] is
    [inputRef.current?.value]. *)
Definition onChange (phone : string -> Phone.result) (st : state)
    (number : option string) : state :=
  match number with
  | None => setError "" st
  | Some number =>
    if negb (truthy_string number) then setError "" st
    else
      let validationResult := phone number in
      if Phone.isValid validationResult
      then setError "" (setPhoneNumber (Phone.phoneNumber validationResult) st)
      else setError "Please enter a valid phone number with country code."
             (setPhoneNumber (Some "") st)
  end.

(** The error text under the field is rendered when [error] is truthy. *)
Definition errorShown (st : state) : bool := truthy_opt_string (error st).

(** [action.disabled] *)
Definition disabled (st : state) : bool :=
  truthy_opt_string (error st) || isSending st || negb (enabled st).

(** [action.onClick], as the state once the awaited call has settled and
    the requests sent to the adapter. *)
Definition onClick (mfa : option MFA.t) (st : state)
  : state * list MfaRequest :=
  if negb (truthy_opt_string (phoneNumber st))
  then (setError "Please provide a phone number." st, [])
  else
    match mfa with
    | None => (setIsSending false (setError (undefined_mfa "setup") st), [])
    | Some m =>
      match MFA.setup m sms (phoneNumber st) with
      | Resolved _ =>
        (setIsSending false (setEnabled false st), [Setup sms (phoneNumber st)])
      | Rejected message =>
        (setIsSending false (setError message st), [Setup sms (phoneNumber st)])
      end
    end.

(** A click reaches [onClick] only on an enabled action. *)
Definition click (mfa : option MFA.t) (st : state) : state * list MfaRequest :=
  if disabled st then (st, []) else onClick mfa st.
End SetupSMS.

(** *** [BackupRecoveryCodes] *)

(** [generate], run on mount and by the Regenerate action: the displayed
    codes afterwards and the commands issued.  [if (codes)] holds for
    every array. *)
Definition generate (mfa : option MFA.t) (p : Props.t) (codes : list string)
  : list string * Action :=
  match mfa with
  | None => (codes, callOnError p "")
  | Some m =>
    match MFA.codes m with
    | Resolved (Some fresh) => (fresh, callOnError p "" ++ [Mfa Codes])
    | Resolved None => (codes, callOnError p "" ++ [Mfa Codes])
    | Rejected message =>
      (codes, callOnError p "" ++ [Mfa Codes] ++ callOnError p message)
    end
  end.

(** The form's [onSubmit]. *)
Definition BackupRecoveryCodes_onSubmit (p : Props.t) (authenticatorType : Value)
  : Action :=
  Props.onNext p [authenticatorType].

(** ** Driving the dialog through its step bodies *)

Inductive Interaction : Type :=
| SubmitChoice (selected : nat)
| SubmitCode (code : option string)
| Generate
| SubmitRecoveryCodes
| Done.

(** The commands an interaction issues on the body that is rendered; an
    interaction the body does not offer issues none.  The commands of
    [generate] do not depend on the codes displayed. *)
Definition interaction (mfa : option MFA.t) (d : Dialog) (i : Interaction) : Action :=
  match body d, i with
  | Some (ChooseAuthenticator p authenticators), SubmitChoice selected =>
    ChooseAuthenticator_onSubmit p authenticators selected
  | Some (AuthenticatorSelector p authenticator isFallback), SubmitCode code =>
    AuthenticatorSelector_onSubmit mfa p authenticator isFallback code
  | Some (BackupRecoveryCodes p _), Generate => snd (generate mfa p [])
  | Some (BackupRecoveryCodes p authenticatorType), SubmitRecoveryCodes =>
    BackupRecoveryCodes_onSubmit p authenticatorType
  | Some (TwoFactorEnabled p _), Done => callOnClose p
  | Some (Fallback2FAEnabled p _ _), Done => callOnClose p
  | _, _ => []
  end.

Definition interact (mfa : option MFA.t) (d : Dialog) (i : Interaction) : Dialog :=
  exec d (interaction mfa d i).

Definition session (mfa : option MFA.t) (d : Dialog) (script : list Interaction) : Dialog :=
  fold_left (interact mfa) script d.

(** ** Concrete collaborators, for evaluating the handlers *)

(** A stand-in for the external phone validator: a plus sign followed by
    7 to 15 digits is valid and is its own normal form. *)
Fixpoint allDigits (s : string) : bool :=
  match s with
  | EmptyString => true
  | String c rest =>
    (48 <=? nat_of_ascii c)%nat && (nat_of_ascii c <=? 57)%nat
    && allDigits rest
  end.

Definition e164 (number : string) : Phone.result :=
  match number with
  | String "+"%char rest =>
    if allDigits rest && (7 <=? String.length rest)%nat
       && (String.length rest <=? 15)%nat
    then Phone.make true (Some number)
    else Phone.make false None
  | _ => Phone.make false None
  end.

(** A service that accepts the code 482193 alone and whose other calls
    answer as given. *)
Definition service (setupAnswer : Outcome unit)
    (codesAnswer : Outcome (option (list string))) : MFA.t :=
  let confirm := fun (_ : Value) (code : string) =>
    if (code =? "482193")%string then Resolved tt else Rejected "Invalid code." in
  {| MFA.enable := confirm;
     MFA.enableFallback := confirm;
     MFA.setup := fun _ _ => setupAnswer;
     MFA.codes := codesAnswer |}.

(** ** Observers used in the statements *)

(** The registry entry whose arrow function a descriptor carries. *)
Definition origin (s : Step.t) : option (Registry * StepKeys) :=
  match Step.component s with
  | Some steps_choose_component => Some (Steps, choose)
  | Some (steps_setup_component _) => Some (Steps, setup)
  | Some (steps_recoveryCodes_component _) => Some (Steps, recoveryCodes)
  | Some (steps_finish_component _) => Some (Steps, finish)
  | Some (fallbackSteps_choose_component _) => Some (FallbackSteps, choose)
  | Some (fallbackSteps_setup_component _) => Some (FallbackSteps, setup)
  | Some (fallbackSteps_finish_component _ _) => Some (FallbackSteps, finish)
  | None => None
  end.

(** A descriptor of [fallbackSteps], with the successor its factory gives. *)
Definition fallbackStep (s : Step.t) : bool :=
  match Step.component s, Step.next s with
  | Some (fallbackSteps_choose_component _), Some setup => true
  | Some (fallbackSteps_setup_component _), Some finish => true
  | Some (fallbackSteps_finish_component _ _), None => true
  | _, _ => false
  end.

(** The candidate list of the [choose] body on screen. *)
Definition offered (d : Dialog) : list AuthenticatorType :=
  match body d with
  | Some (ChooseAuthenticator _ authenticators) => authenticators
  | _ => []
  end.

Definition showsRecoveryCodes (d : Dialog) : bool :=
  match body d with
  | Some (BackupRecoveryCodes _ _) => true
  | _ => false
  end.

(** The codes on screen after a series of [generate] runs, one adapter
    answer per run, and every code these answers issued. *)
Definition displayed (p : Props.t) (history : list (option MFA.t)) : list string :=
  fold_left (fun codes mfa => fst (generate mfa p codes)) history [].

Definition issuedBy (mfa : option MFA.t) : list string :=
  match mfa with
  | Some m =>
    match MFA.codes m with
    | Resolved (Some fresh) => fresh
    | _ => []
    end
  | None => []
  end.

Definition issued (history : list (option MFA.t)) : list string :=
  flat_map issuedBy history.

(** Kinds of commands. *)
Definition setsStep (e : Effect) : bool :=
  match e with SetStep _ => true | _ => false end.
Definition setsError (e : Effect) : bool :=
  match e with SetError _ => true | _ => false end.
Definition callsAdapter (e : Effect) : bool :=
  match e with Mfa _ => true | _ => false end.
Definition callsFactory (e : Effect) : bool :=
  match e with Create _ => true | _ => false end.

(** ** The remaining step bodies *)

(** *** [SetupEmail] *)

Module SetupEmail.
(** The [useState] cells that matter for sending and the [enabled] flag of
    the resend timer. *)
Record state : Type := make
  { isSending : bool;
    error : option string;
    enabled : bool }.

Definition initial (enabled : bool) : state := make false None enabled.

(** [disabled] of the send button: the error text does not enter. *)
Definition disabled (st : state) : bool := isSending st || negb (enabled st).

Definition errorShown (st : state) : bool := truthy_opt_string (error st).

(** [onClick] of the send button, as the state once the awaited call has
    settled and the requests sent to the adapter. *)
Definition onClick (mfa : option MFA.t) (st : state) : state * list MfaRequest :=
  match mfa with
  | None => (make false (Some (undefined_mfa "setup")) (enabled st), [])
  | Some m =>
    match MFA.setup m email None with
    | Resolved _ => (make false (error st) false, [Setup email None])
    | Rejected message => (make false (Some message) (enabled st), [Setup email None])
    end
  end.

Definition click (mfa : option MFA.t) (st : state) : state * list MfaRequest :=
  if disabled st then (st, []) else onClick mfa st.
End SetupEmail.

(** *** [SetupSMS], driven by the user and by the resend timer *)

Inductive SMSEvent : Type :=
| Change (number : option string)
| Click
| TimerElapsed.

(** [TimerElapsed] is the [useTimer] hook switching [enabled] back on. *)
Definition smsStep (phone : string -> Phone.result) (mfa : option MFA.t)
    (st : SetupSMS.state) (ev : SMSEvent) : SetupSMS.state * list MfaRequest :=
  match ev with
  | Change number => (SetupSMS.onChange phone st number, [])
  | Click => SetupSMS.click mfa st
  | TimerElapsed => (SetupSMS.setEnabled true st, [])
  end.

Fixpoint smsRun (phone : string -> Phone.result) (mfa : option MFA.t)
    (st : SetupSMS.state) (evs : list SMSEvent) : SetupSMS.state * list MfaRequest :=
  match evs with
  | [] => (st, [])
  | ev :: rest =>
    let (st', sent) := smsStep phone mfa st ev in
    let (st'', sent') := smsRun phone mfa st' rest in
    (st'', sent ++ sent')
  end.

(** *** The Copy and Download actions of [BackupRecoveryCodes] *)

Definition newline : string := String (ascii_of_nat 10) EmptyString.

(** [codes.join("\n")], the text both actions hand over. *)
Definition exportText (codes : list string) : string := String.concat newline codes.

(** *** [Fallback2FAEnabled] *)


(** ** Observers for whole sessions *)

(** Everything the step bodies issue in the course of a session. *)
Fixpoint transcript (mfa : option MFA.t) (d : Dialog) (script : list Interaction)
  : Action :=
  match script with
  | [] => []
  | i :: rest => interaction mfa d i ++ transcript mfa (interact mfa d i) rest
  end.

(** Where a session stands, with the method it carries. *)
Inductive Position : Type :=
| AtChoose
| AtSetup (t : AuthenticatorType)
| AtRecoveryCodes (t : AuthenticatorType)
| AtFinish (t : AuthenticatorType).

Definition normally (c : Completion Step.t) : option Step.t :=
  match c with
  | Normal s => Some s
  | Throw _ => None
  end.

(** The descriptor the registries give at a position: built by the factory
    of the mode from the catalog entry or the method tag; fallback mode
    has no recovery-codes position and no position for the primary
    method itself. *)
Definition stepAt (pm : option AuthenticatorType) (pos : Position) : option Step.t :=
  match pm, pos with
  | None, AtChoose => Some steps_choose
  | None, AtSetup t => normally (steps_setup (findAuthenticator t))
  | None, AtRecoveryCodes t => Some (steps_recoveryCodes (VMethod t))
  | None, AtFinish t => Some (steps_finish (VMethod t))
  | Some m, AtChoose => Some (fallbackSteps_choose (VMethod m))
  | Some m, AtSetup t =>
    if AuthenticatorType_eqb t m then None
    else normally (fallbackSteps_setup (findAuthenticator t))
  | Some m, AtRecoveryCodes t => None
  | Some m, AtFinish t =>
    if AuthenticatorType_eqb t m then None
    else Some (fallbackSteps_finish (VMethod t) (VMethod m))
  end.

(** The position that follows, in each mode. *)
Definition follows (pm : option AuthenticatorType) (pos pos' : Position) : Prop :=
  match pos, pm with
  | AtChoose, _ => exists t, pos' = AtSetup t
  | AtSetup t, None => pos' = AtRecoveryCodes t
  | AtSetup t, Some _ => pos' = AtFinish t
  | AtRecoveryCodes t, _ => pos' = AtFinish t
  | AtFinish _, _ => False
  end.

(** The lines of a text: the pieces between line feeds. *)
Fixpoint linesFrom (current : string) (text : string) : list string :=
  match text with
  | EmptyString => [current]
  | String c rest =>
    if Ascii.eqb c (ascii_of_nat 10)
    then current :: linesFrom EmptyString rest
    else linesFrom (current ++ String c EmptyString)%string rest
  end.

Definition lines (text : string) : list string := linesFrom EmptyString text.

Fixpoint hasLineFeed (s : string) : bool :=
  match s with
  | EmptyString => false
  | String c rest => Ascii.eqb c (ascii_of_nat 10) || hasLineFeed rest
  end.

(** A request fits the mode: [enable] in primary mode, [enableFallback]
    in fallback mode and for another method than the primary one, both
    for a method tag and with a code of six characters; codes are fetched
    in primary mode.  Requests to send a code are not constrained here. *)
Definition fits (pm : option AuthenticatorType) (r : MfaRequest) : Prop :=
  match r with
  | Enable a code =>
    pm = None /\ (exists t, a = VMethod t) /\ String.length code = 6
  | EnableFallback a code =>
    (exists p t, pm = Some p /\ t <> p /\ a = VMethod t)
    /\ String.length code = 6
  | Codes => pm = None
  | Setup _ _ => True
  end.

(** Among the commands [tr], the service [m] was asked to enable method
    [t] with some six-character code, and it accepted. *)
Definition accepted (m : MFA.t) (pm : option AuthenticatorType)
    (t : AuthenticatorType) (tr : Action) : Prop :=
  exists code,
    String.length code = 6
    /\ match pm with
       | None =>
         In (Mfa (Enable (VMethod t) code)) tr
         /\ MFA.enable m (VMethod t) code = Resolved tt
       | Some _ =>
         In (Mfa (EnableFallback (VMethod t) code)) tr
         /\ MFA.enableFallback m (VMethod t) code = Resolved tt
       end.

Definition verifiedAt (m : MFA.t) (pm : option AuthenticatorType)
    (pos : Position) (tr : Action) : Prop :=
  match pos with
  | AtRecoveryCodes t | AtFinish t => accepted m pm t tr
  | AtChoose | AtSetup _ => True
  end.

(** The number [SetupSMS] has stored is nothing, the empty string, or the
    normal form of an input typed before that the validator accepted. *)
Definition smsStored (phone : string -> Phone.result) (seen : list SMSEvent)
    (st : SetupSMS.state) : Prop :=
  truthy_opt_string (SetupSMS.phoneNumber st) = true ->
  exists n,
    In (Change (Some n)) seen
    /\ n <> ""
    /\ Phone.isValid (phone n) = true
    /\ Phone.phoneNumber (phone n) = SetupSMS.phoneNumber st.

(** A descriptor of [steps], with the successor its factory gives. *)
Definition primaryStep (s : Step.t) : bool :=
  match Step.component s, Step.next s with
  | Some steps_choose_component, Some setup => true
  | Some (steps_setup_component _), Some recoveryCodes => true
  | Some (steps_recoveryCodes_component _), Some finish => true
  | Some (steps_finish_component _), None => true
  | _, _ => false
  end.

(** How far a descriptor is along its registry. *)
Definition rank (s : Step.t) : nat :=
  match origin s with
  | Some (_, choose) | None => 0
  | Some (_, setup) => 1
  | Some (_, recoveryCodes) => 2
  | Some (Steps, finish) => 3
  | Some (FallbackSteps, finish) => 2
  end.

(** A descriptor of the registry the mode uses. *)
Definition ofMode (pm : option AuthenticatorType) (s : Step.t) : bool :=
  match pm with
  | Some _ => fallbackStep s
  | None => primaryStep s
  end.

(** * Properties *)

(** ** Basic facts *)

Lemma AuthenticatorType_eqb_eq (a b : AuthenticatorType) :
  AuthenticatorType_eqb a b = true <-> a = b.
Proof. destruct a, b; simpl; split; congruence. Qed.

Lemma StepKeys_eqb_eq (a b : StepKeys) : StepKeys_eqb a b = true <-> a = b.
Proof. destruct a, b; simpl; split; congruence. Qed.

(** Nothing touches the mode; only [SetStep] touches the step and only
    [SetError] the message. *)
Lemma exec_primaryMethod (a : Action) (d : Dialog) :
  primaryMethod (exec d a) = primaryMethod d.
Proof.
  revert d. induction a as [|e a IH]; intros d; [reflexivity|].
  change (exec d (e :: a)) with (exec (exec1 d e) a).
  rewrite IH. destruct e; reflexivity.
Qed.

Lemma exec_step_frame (a : Action) (d : Dialog) :
  existsb setsStep a = false -> step (exec d a) = step d.
Proof.
  revert d. induction a as [|e a IH]; intros d H; [reflexivity|].
  simpl in H. apply orb_false_iff in H as [He Ha].
  change (exec d (e :: a)) with (exec (exec1 d e) a).
  rewrite IH by exact Ha. destruct e; simpl in *; congruence.
Qed.

Lemma exec_error_frame (a : Action) (d : Dialog) :
  existsb setsError a = false -> error (exec d a) = error d.
Proof.
  revert d. induction a as [|e a IH]; intros d H; [reflexivity|].
  simpl in H. apply orb_false_iff in H as [He Ha].
  change (exec d (e :: a)) with (exec (exec1 d e) a).
  rewrite IH by exact Ha. destruct e; simpl in *; congruence.
Qed.

(** The controller's [onNext] never issues [SetError]. *)
Lemma onNext_setsError (pm : option AuthenticatorType) (s : Step.t) (args : list Value) :
  existsb setsError (onNext pm s args) = false.
Proof.
  unfold onNext. destruct (Step.next s); [|reflexivity].
  destruct (invoke _); reflexivity.
Qed.

Lemma onNext_unfold (pm : option AuthenticatorType) (s : Step.t)
    (args : list Value) (k : StepKeys) :
  Step.next s = Some k ->
  onNext pm s args =
    match invoke (nextStepCall pm k args) with
    | Normal nextStep => [Create (nextStepCall pm k args); SetStep nextStep]
    | Throw message => [Create (nextStepCall pm k args); Raise message]
    end.
Proof. intros H. unfold onNext. rewrite H. reflexivity. Qed.

(** ** Resolution of the successor step *)

(** C1.  On an advance from a step with successor key [k], the handler
    makes one factory call and sets the step to what it returns.  In
    fallback mode (a primary method [m] was supplied) the call goes to the
    [fallbackSteps] entry of [k] if and only if [k] is not
    [recoveryCodes], to the [steps] entry otherwise, and its arguments
    are the forwarded ones followed by [m].  In primary mode the call
    goes to the [steps] entry with exactly the forwarded arguments. *)
Theorem onNext_resolution (d : Dialog) (args : list Value) (k : StepKeys) :
  Step.next (step d) = Some k ->
  let call := nextStepCall (primaryMethod d) k args in
  handle d (Next args) =
    match invoke call with
    | Normal nextStep => [Create call; SetStep nextStep]
    | Throw message => [Create call; Raise message]
    end
  /\ key call = k
  /\ match primaryMethod d with
     | Some m =>
       (registry call = FallbackSteps <-> k <> recoveryCodes)
       /\ (registry call = Steps <-> k = recoveryCodes)
       /\ arguments call = args ++ [VMethod m]
     | None => registry call = Steps /\ arguments call = args
     end
  /\ match registry call with
     | FallbackSteps =>
       exists creator,
         fallbackSteps k = Some creator /\ invoke call = creator (arguments call)
     | Steps => invoke call = steps k (arguments call)
     end
  /\ (forall nextStep,
        invoke call = Normal nextStep -> step (advance d args) = nextStep).
Proof.
  intros Hk call.
  assert (Hh : handle d (Next args) =
            match invoke call with
            | Normal nextStep => [Create call; SetStep nextStep]
            | Throw message => [Create call; Raise message]
            end)
    by (apply onNext_unfold; exact Hk).
  split; [exact Hh|]. split; [reflexivity|]. split; [|split].
  - subst call. destruct (primaryMethod d) as [m|]; simpl.
    + destruct k; simpl; repeat split; congruence.
    + split; reflexivity.
  - subst call. destruct (primaryMethod d) as [m|]; simpl; [|reflexivity].
    destruct k; simpl; try reflexivity; eexists; split; reflexivity.
  - intros nextStep Hn. unfold advance, dispatch. rewrite Hh, Hn. reflexivity.
Qed.

Lemma onNext_resolution_witness :
  Step.next (step (start (Some app))) = Some setup
  /\ step (advance (start (Some app)) [findAuthenticator sms])
     = {| Step.title := Some "Set up using SMS";
          Step.description :=
            Some "Notesnook will send you an SMS text with the 2FA code at login.";
          Step.next := Some finish;
          Step.cancellable := Some true;
          Step.component :=
            Some (fallbackSteps_setup_component (findAuthenticator sms)) |}.
Proof.
  split; [reflexivity|].
  apply (onNext_resolution (start (Some app)) [findAuthenticator sms] setup eq_refl).
  reflexivity.
Defined.

(** C6.  The two [finish] descriptors have no successor key, and on every
    state whose step has none an advance calls [onClose] and nothing
    else: the step is not set and no factory is called. *)
Theorem onNext_terminal :
  (forall v w,
      Step.next (steps_finish v) = None
      /\ Step.next (fallbackSteps_finish v w) = None)
  /\ (forall (d : Dialog) (args : list Value),
         Step.next (step d) = None ->
         handle d (Next args) = [OnClose]
         /\ advance d args = mkDialog (primaryMethod d) (step d) (error d) true
         /\ existsb setsStep (handle d (Next args)) = false
         /\ existsb callsFactory (handle d (Next args)) = false).
Proof.
  split; [intros v w; split; reflexivity|].
  intros d args H.
  assert (Hh : handle d (Next args) = [OnClose])
    by (simpl; unfold onNext; rewrite H; reflexivity).
  unfold advance, dispatch. rewrite Hh. repeat split.
Qed.

Lemma onNext_terminal_witness :
  let d := mkDialog (Some app)
             (fallbackSteps_finish (VMethod sms) (VMethod app)) None false in
  Step.next (step d) = None
  /\ advance d [VMethod sms]
     = mkDialog (Some app)
         (fallbackSteps_finish (VMethod sms) (VMethod app)) None true.
Proof.
  split; [reflexivity|].
  apply (proj2 onNext_terminal
           (mkDialog (Some app)
              (fallbackSteps_finish (VMethod sms) (VMethod app)) None false)
           [VMethod sms] eq_refl).
Defined.

(** ** Cancelling *)

(** C8.  On every state whose step is not flagged cancellable there is no
    negative button: an attempted cancel issues no command, the state
    after it is the state before it, and [onClose] is not called.  The
    two [finish] descriptors are not flagged. *)
Theorem cancel_not_cancellable :
  (forall v w,
      truthy_opt_bool (Step.cancellable (steps_finish v)) = false
      /\ truthy_opt_bool (Step.cancellable (fallbackSteps_finish v w)) = false)
  /\ (forall d : Dialog,
         truthy_opt_bool (Step.cancellable (step d)) = false ->
         negativeButton (step d) = None
         /\ handle d Cancel = []
         /\ cancel d = d
         /\ closed (cancel d) = closed d).
Proof.
  split; [intros v w; split; reflexivity|].
  intros d H.
  assert (Hb : negativeButton (step d) = None)
    by (unfold negativeButton; rewrite H; reflexivity).
  assert (Hh : handle d Cancel = []) by (simpl; rewrite Hb; reflexivity).
  assert (Hc : cancel d = d) by (unfold cancel, dispatch; rewrite Hh; reflexivity).
  repeat split; try assumption. rewrite Hc. reflexivity.
Qed.

Lemma cancel_not_cancellable_witness :
  let d := mkDialog None (steps_finish (VMethod email)) None false in
  truthy_opt_bool (Step.cancellable (step d)) = false /\ cancel d = d.
Proof.
  split; [reflexivity|].
  apply (proj2 cancel_not_cancellable
           (mkDialog None (steps_finish (VMethod email)) None false) eq_refl).
Defined.

(** ** The fallback [choose] step *)

Lemma filter_strict_ne (m : AuthenticatorType) (catalog : list AuthenticatorType) :
  forall i,
    In i (filter (fun i => strict_ne i (VMethod m)) catalog)
    <-> In i catalog /\ i <> m.
Proof.
  intros i. rewrite filter_In. simpl. rewrite negb_true_iff.
  split; intros [Hin H]; split; try exact Hin.
  - intros ->. destruct m; discriminate.
  - destruct (AuthenticatorType_eqb i m) eqn:E; [|reflexivity].
    apply AuthenticatorType_eqb_eq in E. contradiction.
Qed.

(** C3.  For every primary method [m] the [choose] body of a session
    started in fallback mode is given [defaultAuthenticators] with [m]
    filtered out, and shows the catalog entries of exactly these methods;
    for [app] the list is [sms], [email].  Whatever catalog the filter is
    run on, [m] is not in the result. *)
Theorem fallback_choose_offers (m : AuthenticatorType) :
  offered (start (Some m))
  = filter (fun i => negb (AuthenticatorType_eqb i m)) defaultAuthenticators
  /\ (forall i, In i (offered (start (Some m))) <-> In i defaultAuthenticators /\ i <> m)
  /\ ~ In m (offered (start (Some m)))
  /\ map get_type (filteredAuthenticators (offered (start (Some m))))
     = map VMethod (offered (start (Some m)))
  /\ offered (start (Some app)) = [sms; email]
  /\ (forall catalog : list AuthenticatorType,
         ~ In m (filter (fun i => strict_ne i (VMethod m)) catalog)).
Proof.
  assert (G : forall catalog : list AuthenticatorType,
             ~ In m (filter (fun i => strict_ne i (VMethod m)) catalog)).
  { intros catalog H. apply filter_strict_ne in H. destruct H as [_ H].
    apply H. reflexivity. }
  split; [reflexivity|]. split; [|split; [|split; [|split]]].
  - intros i. apply (filter_strict_ne m defaultAuthenticators).
  - apply (G defaultAuthenticators).
  - destruct m; reflexivity.
  - reflexivity.
  - exact G.
Qed.

(** ** Fallback sessions *)

Lemma fallbackStep_origin (s : Step.t) :
  fallbackStep s = true ->
  (exists k, origin s = Some (FallbackSteps, k) /\ k <> recoveryCodes)
  /\ Step.next s <> Some recoveryCodes.
Proof.
  unfold fallbackStep, origin.
  destruct (Step.component s) as [[| | | | | |]|]; try discriminate;
    destruct (Step.next s) as [[| | |]|]; try discriminate; intros _;
    (split; [eexists; split; [reflexivity|discriminate]|discriminate]).
Qed.

Lemma exec1_fallback (m : AuthenticatorType) (d : Dialog) (e : Effect) :
  primaryMethod d = Some m -> fallbackStep (step d) = true ->
  (forall s, e = SetStep s -> fallbackStep s = true) ->
  primaryMethod (exec1 d e) = Some m /\ fallbackStep (step (exec1 d e)) = true.
Proof.
  intros Hm Hs He. destruct e; simpl; auto.
Qed.

Lemma exec_fallback (m : AuthenticatorType) (a : Action) (d : Dialog) :
  primaryMethod d = Some m -> fallbackStep (step d) = true ->
  (forall s, In (SetStep s) a -> fallbackStep s = true) ->
  primaryMethod (exec d a) = Some m /\ fallbackStep (step (exec d a)) = true.
Proof.
  revert d. induction a as [|e a IH]; intros d Hm Hs Ha; [auto|].
  change (exec d (e :: a)) with (exec (exec1 d e) a).
  destruct (exec1_fallback m d e Hm Hs) as [Hm' Hs'].
  - intros s ->. apply Ha. left. reflexivity.
  - apply IH; auto. intros s Hin. apply Ha. right. exact Hin.
Qed.

(** In fallback mode the controller, on a [fallbackSteps] descriptor, sets
    the step to a [fallbackSteps] descriptor only. *)
Lemma onNext_fallback (m : AuthenticatorType) (s : Step.t) (args : list Value) :
  fallbackStep s = true ->
  forall s', In (SetStep s') (onNext (Some m) s args) -> fallbackStep s' = true.
Proof.
  unfold fallbackStep at 1, onNext. intros H s'.
  destruct (Step.component s) as [[| | | | | |]|]; try discriminate;
    destruct (Step.next s) as [[| | |]|]; try discriminate; simpl.
  - change (invoke (nextStepCall (Some m) setup args))
      with (fallbackSteps_setup (arg 0 (args ++ [VMethod m]))).
    unfold fallbackSteps_setup.
    destruct (arg 0 (args ++ [VMethod m])); simpl;
      intros [E|[E|[]]]; try discriminate; injection E as <-; reflexivity.
  - intros [E|[E|[]]]; try discriminate; injection E as <-; reflexivity.
  - intros [E|[]]; discriminate.
Qed.

Lemma handle_fallback (m : AuthenticatorType) (d : Dialog) (ev : Event) :
  primaryMethod d = Some m -> fallbackStep (step d) = true ->
  forall s', In (SetStep s') (handle d ev) -> fallbackStep s' = true.
Proof.
  intros Hm Hs s'. destruct ev; simpl.
  - rewrite Hm. apply onNext_fallback. exact Hs.
  - intros [E|[]]; discriminate.
  - intros [E|[]]; discriminate.
  - unfold negativeButton. destruct (truthy_opt_bool _); simpl.
    + intros [E|[]]; discriminate.
    + intros [].
Qed.

Lemma run_fallback (m : AuthenticatorType) (evs : list Event) (d : Dialog) :
  primaryMethod d = Some m -> fallbackStep (step d) = true ->
  primaryMethod (run d evs) = Some m /\ fallbackStep (step (run d evs)) = true.
Proof.
  revert d. induction evs as [|ev evs IH]; intros d Hm Hs; [auto|].
  change (run d (ev :: evs)) with (run (dispatch d ev) evs).
  destruct (exec_fallback m (handle d ev) d Hm Hs (handle_fallback m d ev Hm Hs))
    as [Hm' Hs'].
  apply IH; assumption.
Qed.

Lemma tryCatch_In (e : Effect) (a : Action) (handler : string -> Action) :
  In e (tryCatch a handler) -> In e a \/ exists message, In e (handler message).
Proof.
  induction a as [|x a IH]; simpl; [tauto|].
  destruct x; simpl;
    try (intros [E|H]; [left; left; exact E | destruct (IH H) as [H'|H']; tauto]).
  intros H. right. exists message. exact H.
Qed.

(** The same holds for what the step bodies make of the user's
    interactions. *)
Lemma interaction_fallback (mfa : option MFA.t) (m : AuthenticatorType)
    (d : Dialog) (i : Interaction) :
  primaryMethod d = Some m -> fallbackStep (step d) = true ->
  forall s', In (SetStep s') (interaction mfa d i) -> fallbackStep s' = true.
Proof.
  intros Hm Hs s'. unfold interaction, body.
  assert (Hc := Hs). unfold fallbackStep in Hc.
  destruct (Step.component (step d)) as [[| | | | | |]|] eqn:Ec;
    try discriminate; clear Hc; simpl.
  - destruct i; simpl; try tauto.
    unfold ChooseAuthenticator_onSubmit. simpl. rewrite Hm.
    apply onNext_fallback. exact Hs.
  - destruct i; simpl; try tauto.
    unfold AuthenticatorSelector_onSubmit.
    destruct (get_type authenticator); simpl; try tauto.
    unfold VerifyAuthenticatorForm_onSubmit.
    destruct code as [c|]; simpl; try tauto.
    destruct (negb (truthy_string c) || negb (String.length c =? 6)%nat);
      simpl; try tauto.
    unfold onSubmitCode.
    assert (Hn : forall a,
               In (SetStep s')
                  (tryCatch (Props.onNext (onlyOnNext (dialogProps d)) a)
                            (callOnError (onlyOnNext (dialogProps d)))) ->
               fallbackStep s' = true).
    { intros a H. apply tryCatch_In in H. destruct H as [H|[message H]].
      - simpl in H. rewrite Hm in H. revert H. apply onNext_fallback. exact Hs.
      - destruct H. }
    destruct mfa as [service|]; simpl.
    + destruct (MFA.enableFallback service _ c); simpl.
      * intros [E|H]; [discriminate|]. revert H. apply Hn.
      * intros [E|[]]; discriminate.
    + apply Hn.
  - destruct i; simpl; try tauto.
    intros [E|[]]; discriminate.
Qed.

Lemma session_fallback (mfa : option MFA.t) (m : AuthenticatorType)
    (script : list Interaction) (d : Dialog) :
  primaryMethod d = Some m -> fallbackStep (step d) = true ->
  primaryMethod (session mfa d script) = Some m
  /\ fallbackStep (step (session mfa d script)) = true.
Proof.
  revert d. induction script as [|i script IH]; intros d Hm Hs; [auto|].
  change (session mfa d (i :: script))
    with (session mfa (interact mfa d i) script).
  destruct (exec_fallback m (interaction mfa d i) d Hm Hs
              (interaction_fallback mfa m d i Hm Hs)) as [Hm' Hs'].
  apply IH; assumption.
Qed.

Lemma fallbackStep_body (d : Dialog) :
  fallbackStep (step d) = true -> showsRecoveryCodes d = false.
Proof.
  unfold fallbackStep, showsRecoveryCodes, body.
  destruct (Step.component (step d)) as [[| | | | | |]|];
    try discriminate; reflexivity.
Qed.

(** C2.  The fallback [choose] descriptor has successor [setup]; the
    fallback [setup] factory, when it returns, gives a descriptor with
    successor [finish].  In a session started in fallback mode, after any
    sequence of controller events ([run]) and after any sequence of user
    interactions with the step bodies ([session]), the mode is unchanged,
    the current descriptor is one of [fallbackSteps], its successor is not
    [recoveryCodes], and the recovery-codes body is not on screen. *)
Theorem fallback_never_recoveryCodes (m : AuthenticatorType) :
  (forall v, Step.next (fallbackSteps_choose v) = Some setup)
  /\ (forall a,
         match fallbackSteps_setup a with
         | Normal s => Step.next s = Some finish
         | Throw _ => a = VUndefined
         end)
  /\ (forall evs : list Event,
         let d := run (start (Some m)) evs in
         primaryMethod d = Some m
         /\ (exists k, origin (step d) = Some (FallbackSteps, k) /\ k <> recoveryCodes)
         /\ Step.next (step d) <> Some recoveryCodes
         /\ showsRecoveryCodes d = false)
  /\ (forall (mfa : option MFA.t) (script : list Interaction),
         let d := session mfa (start (Some m)) script in
         primaryMethod d = Some m
         /\ (exists k, origin (step d) = Some (FallbackSteps, k) /\ k <> recoveryCodes)
         /\ Step.next (step d) <> Some recoveryCodes
         /\ showsRecoveryCodes d = false).
Proof.
  split; [reflexivity|]. split; [intros [| |]; reflexivity|]. split.
  - intros evs d.
    destruct (run_fallback m evs (start (Some m)) eq_refl eq_refl) as [Hm Hs].
    destruct (fallbackStep_origin _ Hs) as [Ho Hn].
    repeat split; try assumption. apply fallbackStep_body. exact Hs.
  - intros mfa script d.
    destruct (session_fallback mfa m script (start (Some m)) eq_refl eq_refl)
      as [Hm Hs].
    destruct (fallbackStep_origin _ Hs) as [Ho Hn].
    repeat split; try assumption. apply fallbackStep_body. exact Hs.
Qed.

(** ** Reporting errors *)

(** [reportError] sets the message and nothing else. *)
Lemma reportError_frame (d : Dialog) (message : string) :
  reportError d message
  = mkDialog (primaryMethod d) (step d) (Some message) (closed d).
Proof. reflexivity. Qed.

(** Two reports in a row stay on the step; the second message stands. *)
Lemma reportError_twice (d : Dialog) (first second : string) :
  let d' := reportError (reportError d first) second in
  step d' = step d /\ error d' = Some second /\ closed d' = closed d.
Proof. repeat split. Qed.

(** Both [setup] descriptors render [AuthenticatorSelector] with [onNext]
    alone: its [onError] is [undefined]. *)
Lemma setup_body_without_onError (d : Dialog) (k : Registry) :
  origin (step d) = Some (k, setup) ->
  exists authenticator isFallback,
    body d = Some (AuthenticatorSelector (onlyOnNext (dialogProps d))
                     authenticator isFallback)
    /\ Props.onError (onlyOnNext (dialogProps d)) = None.
Proof.
  unfold origin, body.
  destruct (Step.component (step d)) as [[| | | | | |]|]; try discriminate;
    intros _; simpl; eauto.
Qed.

(** On a [setup] step, a code the service rejects changes nothing in the
    dialog: no message is set. *)
Lemma setup_rejection_dropped (m : MFA.t) (d : Dialog) (k : Registry)
    (code : string) :
  origin (step d) = Some (k, setup) ->
  (forall a, exists message, MFA.enable m a code = Rejected message) ->
  (forall a, exists message, MFA.enableFallback m a code = Rejected message) ->
  interact (Some m) d (SubmitCode (Some code)) = d.
Proof.
  intros Ho He Hf. unfold interact, interaction, body. unfold origin in Ho.
  destruct (Step.component (step d)) as [[| | | | | |]|]; try discriminate;
    simpl; unfold AuthenticatorSelector_onSubmit;
    destruct (get_type authenticator); try reflexivity;
    unfold VerifyAuthenticatorForm_onSubmit;
    destruct (negb (truthy_string code) || negb (String.length code =? 6)%nat);
    try reflexivity; unfold onSubmitCode; simpl.
  - destruct (He (VMethod m0)) as [message ->]. reflexivity.
  - destruct (Hf (VMethod m0)) as [message ->]. reflexivity.
Qed.

(** C4, evaluated where the code departs from it.  Primary enrollment,
    method [app] chosen, code 000000 submitted on the [setup] step, and
    the service rejects it with a message: the only command issued is
    the request to the service; the step is still the [setup] step, but
    no message has been set and none is shown.  The same happens on the
    fallback [setup] step. *)
Theorem setup_rejection_sets_no_error :
  let mfa := Some (service (Resolved tt) (Resolved None)) in
  let d := session mfa (start None) [SubmitChoice 0] in
  let f := session mfa (start (Some app)) [SubmitChoice 0] in
  origin (step d) = Some (Steps, setup)
  /\ MFA.enable (service (Resolved tt) (Resolved None)) (VMethod app) "000000"
     = Rejected "Invalid code."
  /\ interaction mfa d (SubmitCode (Some "000000"))
     = [Mfa (Enable (VMethod app) "000000")]
  /\ interact mfa d (SubmitCode (Some "000000")) = d
  /\ error (interact mfa d (SubmitCode (Some "000000"))) = None
  /\ errorShown (interact mfa d (SubmitCode (Some "000000"))) = false
  /\ origin (step f) = Some (FallbackSteps, setup)
  /\ interaction mfa f (SubmitCode (Some "000000"))
     = [Mfa (EnableFallback (VMethod sms) "000000")]
  /\ error (interact mfa f (SubmitCode (Some "000000"))) = None.
Proof. repeat split. Qed.

(** ** The error message across an advance *)

(** An advance that leaves the [recoveryCodes] step after a failed fetch
    keeps the message on screen. *)
Lemma advance_keeps_error_on_screen :
  let mfa := Some (service (Resolved tt) (Rejected "Network error")) in
  let d := session mfa (start None)
             [SubmitChoice 0; SubmitCode (Some "482193"); Generate] in
  let d' := interact mfa d SubmitRecoveryCodes in
  origin (step d) = Some (Steps, recoveryCodes)
  /\ error d = Some "Network error"
  /\ interaction mfa d SubmitRecoveryCodes = handle d (Next [VMethod app])
  /\ d' = advance d [VMethod app]
  /\ step d' = steps_finish (VMethod app)
  /\ origin (step d') = Some (Steps, finish)
  /\ error d' = Some "Network error"
  /\ errorShown d' = true.
Proof. repeat split. Qed.

Lemma generate_reports_empty_first (mfa : option MFA.t) (d : Dialog)
    (codes : list string) :
  exists rest, snd (generate mfa (dialogProps d) codes) = SetError "" :: rest.
Proof.
  unfold generate. destruct mfa as [m|]; [|eexists; reflexivity].
  destruct (MFA.codes m) as [[fresh|]|message]; eexists; reflexivity.
Qed.

(** C5, as the code has it.  The controller never clears the message: an
    advance, whether it sets a new step, closes or throws, leaves the
    message as it was, and so does a cancel.  Only a further report
    replaces it; reporting the empty string hides it, and the
    recovery-codes body does so first thing each time it fetches. *)
Theorem error_survives_advance (d : Dialog) :
  (forall args, error (advance d args) = error d)
  /\ error (cancel d) = error d
  /\ (forall message, error (reportError d message) = Some message)
  /\ errorShown (reportError d "") = false
  /\ (forall mfa codes,
         exists rest,
           snd (generate mfa (dialogProps d) codes) = SetError "" :: rest).
Proof.
  split; [|split; [|split; [|split]]].
  - intros args. unfold advance, dispatch. apply exec_error_frame.
    apply onNext_setsError.
  - unfold cancel, dispatch. apply exec_error_frame. simpl.
    unfold negativeButton. destruct (truthy_opt_bool _); reflexivity.
  - reflexivity.
  - reflexivity.
  - intros mfa codes. apply generate_reports_empty_first.
Qed.

(** ** Local validation *)

Lemma VerifyAuthenticatorForm_rejects (code : option string)
    (submit : string -> Action) :
  (forall c, code = Some c -> String.length c <> 6) ->
  VerifyAuthenticatorForm_onSubmit code submit = [].
Proof.
  intros H. destruct code as [c|]; [|reflexivity]. simpl.
  destruct (String.length c =? 6)%nat eqn:E.
  - apply Nat.eqb_eq in E. destruct (H c eq_refl E).
  - rewrite orb_true_r. reflexivity.
Qed.

(** With an empty phone field the validator is not asked, although it
    would reject the input, and the error text is cleared; after a valid
    number has been typed and deleted again, the send action is enabled
    and sends the number typed before. *)
Lemma empty_phone_input_shows_no_error :
  let mfa := Some (service (Resolved tt) (Resolved None)) in
  let typed := SetupSMS.onChange e164 (SetupSMS.initial true) (Some "+14155552671") in
  let emptied := SetupSMS.onChange e164 typed (Some "") in
  Phone.isValid (e164 "") = false
  /\ SetupSMS.errorShown (SetupSMS.onChange e164 (SetupSMS.initial true) (Some "")) = false
  /\ SetupSMS.errorShown emptied = false
  /\ SetupSMS.disabled emptied = false
  /\ snd (SetupSMS.click mfa emptied) = [Setup sms (Some "+14155552671")].
Proof. repeat split. Qed.

(** C7, as the code has it.  A submitted code whose length is not 6 (or
    no code at all) issues no command, on the form itself and on the
    dialog, so no request reaches the service.  A non-empty phone input
    that the validator rejects sets the validation message, which is
    shown, empties the stored number and disables the send action; the
    click handler then sends nothing.  An empty phone input is not
    validated: no error text is shown for it. *)
Theorem local_validation_precedes_adapter :
  (forall (code : option string) (submit : string -> Action),
      (forall c, code = Some c -> String.length c <> 6) ->
      VerifyAuthenticatorForm_onSubmit code submit = [])
  /\ (forall (mfa : option MFA.t) (d : Dialog) (code : option string),
         (forall c, code = Some c -> String.length c <> 6) ->
         interaction mfa d (SubmitCode code) = []
         /\ existsb callsAdapter (interaction mfa d (SubmitCode code)) = false)
  /\ (forall (phone : string -> Phone.result) (mfa : option MFA.t)
             (st : SetupSMS.state) (number : string),
         number <> "" ->
         Phone.isValid (phone number) = false ->
         let st' := SetupSMS.onChange phone st (Some number) in
         SetupSMS.error st'
         = Some "Please enter a valid phone number with country code."
         /\ SetupSMS.errorShown st' = true
         /\ SetupSMS.phoneNumber st' = Some ""
         /\ SetupSMS.disabled st' = true
         /\ snd (SetupSMS.onClick mfa st') = []
         /\ snd (SetupSMS.click mfa st') = [])
  /\ (forall (phone : string -> Phone.result) (st : SetupSMS.state),
         SetupSMS.errorShown (SetupSMS.onChange phone st (Some "")) = false).
Proof.
  split; [exact VerifyAuthenticatorForm_rejects|]. split; [|split].
  - intros mfa d code H.
    assert (E : interaction mfa d (SubmitCode code) = []).
    { unfold interaction.
      destruct (body d) as [[p a|p a fb|p a|p a|p a b]|]; try reflexivity.
      unfold AuthenticatorSelector_onSubmit. destruct a; try reflexivity.
      apply VerifyAuthenticatorForm_rejects. exact H. }
    rewrite E. split; reflexivity.
  - intros phone mfa st number Hne Hrej st'.
    assert (Hst : st' = SetupSMS.setError
                          "Please enter a valid phone number with country code."
                          (SetupSMS.setPhoneNumber (Some "") st)).
    { subst st'. unfold SetupSMS.onChange, truthy_string.
      destruct (number =? "")%string eqn:E.
      - apply String.eqb_eq in E. contradiction.
      - simpl. rewrite Hrej. reflexivity. }
    rewrite Hst. repeat split.
  - intros phone st. reflexivity.
Qed.

Lemma local_validation_precedes_adapter_witness :
  (forall c, Some "12345" = Some c -> String.length c <> 6)
  /\ "notanumber" <> ""
  /\ Phone.isValid (e164 "notanumber") = false
  /\ interaction (Some (service (Resolved tt) (Resolved None)))
       (session None (start None) [SubmitChoice 1]) (SubmitCode (Some "12345"))
     = []
  /\ snd (SetupSMS.click (Some (service (Resolved tt) (Resolved None)))
            (SetupSMS.onChange e164 (SetupSMS.initial true) (Some "notanumber")))
     = [].
Proof.
  assert (H5 : forall c, Some "12345" = Some c -> String.length c <> 6)
    by (intros c E; injection E as <-; discriminate).
  assert (Hn : "notanumber" <> "") by discriminate.
  destruct local_validation_precedes_adapter as [_ [Hcode [Hphone _]]].
  split; [exact H5|]. split; [exact Hn|]. split; [reflexivity|]. split.
  - apply (Hcode (Some (service (Resolved tt) (Resolved None)))
             (session None (start None) [SubmitChoice 1]) (Some "12345") H5).
  - apply (Hphone e164 (Some (service (Resolved tt) (Resolved None)))
             (SetupSMS.initial true) "notanumber" Hn eq_refl).
Defined.

(** ** Recovery codes *)

Lemma generate_codes (mfa : option MFA.t) (p : Props.t) (codes : list string) :
  fst (generate mfa p codes)
  = match mfa with
    | Some m =>
      match MFA.codes m with
      | Resolved (Some fresh) => fresh
      | _ => codes
      end
    | None => codes
    end.
Proof.
  unfold generate. destruct mfa as [m|]; [|reflexivity].
  destruct (MFA.codes m) as [[fresh|]|message]; reflexivity.
Qed.

(** Every code on screen was issued by one of the answers so far. *)
Lemma displayed_from (p : Props.t) (history : list (option MFA.t)) :
  forall (codes : list string) (c : string),
    In c (fold_left (fun codes mfa => fst (generate mfa p codes)) history codes) ->
    In c codes \/ In c (issued history).
Proof.
  induction history as [|mfa history IH]; intros codes c; simpl; [tauto|].
  intros H. apply IH in H. rewrite in_app_iff. destruct H as [H|H]; [|tauto].
  rewrite generate_codes in H. unfold issuedBy.
  destruct mfa as [m|]; [|tauto].
  destruct (MFA.codes m) as [[fresh|]|message]; tauto.
Qed.

Lemma displayed_issued (p : Props.t) (history : list (option MFA.t)) (c : string) :
  In c (displayed p history) -> In c (issued history).
Proof.
  intros H. apply displayed_from in H. destruct H as [[]|H]. exact H.
Qed.

(** C9.  [history] is the series of answers that produced the codes on
    screen.  When the service then answers a regeneration with the list
    [fresh], and (its contract) none of these codes was issued before,
    the codes on screen are exactly [fresh], and they share no code with
    the codes that were on screen before. *)
Theorem regenerate_replaces (p : Props.t) (history : list (option MFA.t))
    (m : MFA.t) (fresh : list string) :
  MFA.codes m = Resolved (Some fresh) ->
  (forall c, In c fresh -> ~ In c (issued history)) ->
  let prior := displayed p history in
  let after := fst (generate (Some m) p prior) in
  after = fresh
  /\ displayed p (history ++ [Some m]) = fresh
  /\ (forall c, In c after -> ~ In c prior)
  /\ (forall c, In c prior -> ~ In c after).
Proof.
  intros Hm Hfresh prior after.
  assert (E : after = fresh)
    by (subst after; rewrite generate_codes, Hm; reflexivity).
  split; [exact E|]. split; [|split].
  - unfold displayed. rewrite fold_left_app. exact E.
  - rewrite E. intros c Hc Hp. apply (Hfresh c Hc).
    apply (displayed_issued p). exact Hp.
  - rewrite E. intros c Hp Hc. apply (Hfresh c Hc).
    apply (displayed_issued p). exact Hp.
Qed.

Lemma regenerate_replaces_witness :
  let first := service (Resolved tt) (Resolved (Some ["k3f9"; "p0x2"])) in
  let second := service (Resolved tt) (Resolved (Some ["m7q1"; "z8d4"])) in
  displayed recoveryCodesDialogProps [Some first] = ["k3f9"; "p0x2"]
  /\ fst (generate (Some second) recoveryCodesDialogProps
            (displayed recoveryCodesDialogProps [Some first]))
     = ["m7q1"; "z8d4"].
Proof.
  split; [reflexivity|].
  apply (regenerate_replaces recoveryCodesDialogProps
           [Some (service (Resolved tt) (Resolved (Some ["k3f9"; "p0x2"])))]
           (service (Resolved tt) (Resolved (Some ["m7q1"; "z8d4"])))
           ["m7q1"; "z8d4"] eq_refl).
  simpl. intros c [<-|[<-|[]]] [H|[H|[]]]; discriminate.
Defined.

(** An answer that is an empty array replaces the codes on screen. *)
Lemma generate_empty_answer_replaces :
  let m := service (Resolved tt) (Resolved (Some [])) in
  fst (generate (Some m) recoveryCodesDialogProps ["k3f9"; "p0x2"]) = []
  /\ fst (generate (Some m) recoveryCodesDialogProps ["k3f9"; "p0x2"])
     <> ["k3f9"; "p0x2"].
Proof. split; [reflexivity|discriminate]. Qed.

(** C10, as the code has it.  The codes on screen are left as they were
    when there is no adapter, when the call resolves to [undefined], and
    when it rejects; in that last case the handler reports the empty
    string, makes the request and reports the message of the failure,
    which the dialog then holds, on the same step.  An array the call
    resolves to, whatever its length, becomes the codes on screen. *)
Theorem generate_keeps_codes (p : Props.t) (prior : list string) :
  fst (generate None p prior) = prior
  /\ (forall m, MFA.codes m = Resolved None ->
                fst (generate (Some m) p prior) = prior)
  /\ (forall m message,
         MFA.codes m = Rejected message ->
         fst (generate (Some m) p prior) = prior
         /\ snd (generate (Some m) p prior)
            = callOnError p "" ++ [Mfa Codes] ++ callOnError p message
         /\ (forall d : Dialog,
                let d' := exec d (snd (generate (Some m) (dialogProps d) prior)) in
                error d' = Some message /\ step d' = step d /\ closed d' = closed d))
  /\ (forall m fresh,
         MFA.codes m = Resolved (Some fresh) ->
         fst (generate (Some m) p prior) = fresh).
Proof.
  split; [reflexivity|]. split; [|split].
  - intros m H. rewrite generate_codes, H. reflexivity.
  - intros m message H. unfold generate. rewrite H. repeat split.
  - intros m fresh H. rewrite generate_codes, H. reflexivity.
Qed.

Lemma generate_keeps_codes_witness :
  let m := service (Resolved tt) (Rejected "Network error") in
  let d := mkDialog None (steps_recoveryCodes (VMethod app)) None false in
  MFA.codes m = Rejected "Network error"
  /\ fst (generate (Some m) (dialogProps d) ["k3f9"; "p0x2"]) = ["k3f9"; "p0x2"]
  /\ error (exec d (snd (generate (Some m) (dialogProps d) ["k3f9"; "p0x2"])))
     = Some "Network error".
Proof.
  split; [reflexivity|].
  destruct (generate_keeps_codes
              (dialogProps (mkDialog None (steps_recoveryCodes (VMethod app)) None false))
              ["k3f9"; "p0x2"]) as [_ [_ [H _]]].
  destruct (H (service (Resolved tt) (Rejected "Network error"))
              "Network error" eq_refl) as [Hc [_ Hd]].
  split; [exact Hc|].
  apply (Hd (mkDialog None (steps_recoveryCodes (VMethod app)) None false)).
Defined.

(** * Further properties *)

(** ** Sessions driven through the step bodies *)

Ltac position_is pos :=
  exists pos; split; [reflexivity | first [left; reflexivity | right; simpl; eauto]].

Ltac find_position :=
  first [ position_is AtChoose
        | position_is (AtSetup app) | position_is (AtSetup sms)
        | position_is (AtSetup email)
        | position_is (AtRecoveryCodes app) | position_is (AtRecoveryCodes sms)
        | position_is (AtRecoveryCodes email)
        | position_is (AtFinish app) | position_is (AtFinish sms)
        | position_is (AtFinish email) ].

Ltac split_cases :=
  repeat match goal with
         | |- context [match ?x with _ => _ end] =>
           match x with
           | context [match _ with _ => _ end] => fail 1
           | _ => destruct x eqn:?; simpl
           end
         end.

(** Every position and every interaction, one goal each. *)
Ltac each_position d Hm Hs :=
  let pm' := fresh "pm" in
  let s := fresh "s" in
  let e := fresh "e" in
  let c := fresh "c" in
  destruct d as [pm' s e c]; simpl in Hm, Hs; subst pm';
  match goal with
  | H : stepAt ?pm ?pos = _ |- _ =>
    destruct pm as [[| |]|]; destruct pos as [|[| |]|[| |]|[| |]];
    simpl in H; try discriminate; injection H as <-
  end.

Ltac unfold_bodies :=
  unfold interact, interaction, body; simpl;
  unfold AuthenticatorSelector_onSubmit, VerifyAuthenticatorForm_onSubmit,
    onSubmitCode, generate, BackupRecoveryCodes_onSubmit,
    ChooseAuthenticator_onSubmit; simpl.

Lemma stepAt_injective (pm : option AuthenticatorType) (pos pos' : Position)
    (s : Step.t) :
  stepAt pm pos = Some s -> stepAt pm pos' = Some s -> pos = pos'.
Proof.
  intros H H'.
  destruct pm as [[| |]|]; destruct pos as [|[| |]|[| |]|[| |]];
    simpl in H; try discriminate; injection H as <-;
    destruct pos' as [|[| |]|[| |]|[| |]]; simpl in H';
    try discriminate; reflexivity.
Qed.

Lemma interact_primaryMethod (mfa : option MFA.t) (d : Dialog) (i : Interaction) :
  primaryMethod (interact mfa d i) = primaryMethod d.
Proof. apply exec_primaryMethod. Qed.

Lemma interact_position (pm : option AuthenticatorType) (mfa : option MFA.t)
    (d : Dialog) (pos : Position) (i : Interaction) :
  primaryMethod d = pm -> stepAt pm pos = Some (step d) ->
  exists pos',
    stepAt pm pos' = Some (step (interact mfa d i))
    /\ (pos' = pos \/ follows pm pos pos').
Proof.
  intros Hm Hs. each_position d Hm Hs.
  all: destruct i as [selected|code| | |].
  all: try (find_position; fail).
  all: unfold_bodies.
  all: try (destruct selected as [|[|[|selected]]]; simpl; find_position).
  all: split_cases; find_position.
Qed.

Lemma session_from_position (pm : option AuthenticatorType) (mfa : option MFA.t)
    (script : list Interaction) :
  forall (d : Dialog) (pos : Position),
    primaryMethod d = pm -> stepAt pm pos = Some (step d) ->
    primaryMethod (session mfa d script) = pm
    /\ exists pos', stepAt pm pos' = Some (step (session mfa d script)).
Proof.
  induction script as [|i script IH]; intros d pos Hm Hs.
  - split; [exact Hm|]. exists pos. exact Hs.
  - change (session mfa d (i :: script))
      with (session mfa (interact mfa d i) script).
    destruct (interact_position pm mfa d pos i Hm Hs) as [pos' [Hs' _]].
    apply (IH _ pos'); [|exact Hs'].
    rewrite interact_primaryMethod. exact Hm.
Qed.

(** X1.  Whatever the user does with the step bodies and whatever the
    service answers, the descriptor on screen is one a factory of the
    session's own registry returns for a catalog entry or a method tag:
    no [undefined] and no value of the wrong kind is ever captured, and
    in fallback mode the method carried differs from the primary one. *)
Theorem session_position (pm : option AuthenticatorType) (mfa : option MFA.t)
    (script : list Interaction) :
  primaryMethod (session mfa (start pm) script) = pm
  /\ (exists pos, stepAt pm pos = Some (step (session mfa (start pm) script)))
  /\ (forall pos pos' s,
         stepAt pm pos = Some s -> stepAt pm pos' = Some s -> pos = pos').
Proof.
  assert (H0 : stepAt pm AtChoose = Some (step (start pm)))
    by (destruct pm; reflexivity).
  destruct (session_from_position pm mfa script (start pm) AtChoose eq_refl H0)
    as [Hm Hs].
  split; [exact Hm|]. split; [exact Hs|]. apply stepAt_injective.
Qed.

Lemma session_position_witness :
  stepAt (Some app) (AtSetup sms)
  = Some (step (session None (start (Some app)) [SubmitChoice 0]))
  /\ AtSetup sms = AtSetup sms.
Proof.
  split; [reflexivity|].
  destruct (session_position (Some app) None [SubmitChoice 0]) as [_ [_ Inj]].
  apply (Inj (AtSetup sms) (AtSetup sms)
           (step (session None (start (Some app)) [SubmitChoice 0]))
           eq_refl eq_refl).
Defined.

(** X2.  An interaction either leaves the session where it stands or
    moves it to the position that follows, with the method chosen:
    [choose], [setup], [recoveryCodes], [finish] in primary mode and
    [choose], [setup], [finish] in fallback mode.  Nothing goes back,
    skips a position or swaps the method. *)
Theorem interaction_moves_forward (pm : option AuthenticatorType)
    (mfa : option MFA.t) (script : list Interaction) (i : Interaction) :
  let d := session mfa (start pm) script in
  exists pos pos',
    stepAt pm pos = Some (step d)
    /\ stepAt pm pos' = Some (step (interact mfa d i))
    /\ (pos' = pos \/ follows pm pos pos').
Proof.
  intros d.
  assert (H0 : stepAt pm AtChoose = Some (step (start pm)))
    by (destruct pm; reflexivity).
  destruct (session_from_position pm mfa script (start pm) AtChoose eq_refl H0)
    as [Hm [pos Hs]].
  destruct (interact_position pm mfa d pos i Hm Hs) as [pos' [Hs' Hf]].
  exists pos, pos'. auto.
Qed.

Lemma six_passes (c : string) :
  String.length c = 6 ->
  negb (truthy_string c) || negb (String.length c =? 6)%nat = false.
Proof.
  intros H. rewrite H. destruct c; [discriminate|reflexivity].
Qed.

Lemma passes_six (c : string) :
  negb (truthy_string c) || negb (String.length c =? 6)%nat = false ->
  String.length c = 6.
Proof.
  intros H. apply orb_false_iff in H as [_ H].
  apply negb_false_iff in H. apply Nat.eqb_eq in H. exact H.
Qed.





(** X5.  Continue on a [choose] step with a selection index past the end
    of the list on offer hands [undefined] to the [setup] factory, which
    throws on its title: the handler makes that one call, raises, and the
    dialog is left exactly as it was.  The list has three entries in
    primary mode and two in fallback mode. *)
Theorem choice_out_of_range (pm : option AuthenticatorType) (mfa : option MFA.t)
    (e : option string) (c : bool) (selected : nat) :
  let d := mkDialog pm (initialStep pm) e c in
  length (offered d) <= selected ->
  length (offered d) = match pm with Some _ => 2 | None => 3 end
  /\ interaction mfa d (SubmitChoice selected)
     = [Create (nextStepCall pm setup [VUndefined]); Raise undefined_title]
  /\ interact mfa d (SubmitChoice selected) = d.
Proof.
  intros d H. subst d.
  destruct pm as [[| |]|]; simpl in H;
    destruct selected as [|[|[|n]]]; try lia;
    try (destruct n); repeat split.
Qed.

Lemma choice_out_of_range_witness :
  interact None (start (Some app)) (SubmitChoice 2) = start (Some app).
Proof.
  apply (choice_out_of_range (Some app) None None false 2). simpl. lia.
Defined.

(** ** What reaches the service *)

Ltac fits_request :=
  simpl; intuition (try discriminate);
  match goal with
  | H : Mfa _ = Mfa _ |- _ => injection H as <-
  end;
  simpl; repeat split; eauto; try discriminate;
  try (apply passes_six; assumption);
  try (eexists; eexists; repeat split; eauto; discriminate).

Lemma interaction_fits (pm : option AuthenticatorType) (mfa : option MFA.t)
    (d : Dialog) (pos : Position) (i : Interaction) (r : MfaRequest) :
  primaryMethod d = pm -> stepAt pm pos = Some (step d) ->
  In (Mfa r) (interaction mfa d i) -> fits pm r.
Proof.
  intros Hm Hs. each_position d Hm Hs.
  all: destruct i as [selected|code| | |].
  all: unfold_bodies.
  all: try (destruct selected as [|[|[|selected]]]; simpl).
  all: split_cases.
  all: fits_request.
Qed.

Lemma transcript_fits (pm : option AuthenticatorType) (mfa : option MFA.t)
    (r : MfaRequest) (script : list Interaction) :
  forall (d : Dialog) (pos : Position),
    primaryMethod d = pm -> stepAt pm pos = Some (step d) ->
    In (Mfa r) (transcript mfa d script) -> fits pm r.
Proof.
  induction script as [|i script IH]; intros d pos Hm Hs; simpl; [tauto|].
  intros H. apply in_app_or in H. destruct H as [H|H].
  - exact (interaction_fits pm mfa d pos i r Hm Hs H).
  - destruct (interact_position pm mfa d pos i Hm Hs) as [pos' [Hs' _]].
    apply (IH (interact mfa d i) pos'); [|exact Hs'|exact H].
    rewrite interact_primaryMethod. exact Hm.
Qed.

(** X6.  In the course of a session the service is asked to [enable]
    only in primary mode and to [enableFallback] only in fallback mode,
    each time for a method tag and with a code of exactly six characters;
    the fallback method asked for is never the primary one.  Recovery
    codes are fetched in primary mode only. *)
Theorem requests_fit_mode (pm : option AuthenticatorType) (mfa : option MFA.t)
    (script : list Interaction) :
  let tr := transcript mfa (start pm) script in
  (forall a code,
      In (Mfa (Enable a code)) tr ->
      pm = None /\ (exists t, a = VMethod t) /\ String.length code = 6)
  /\ (forall a code,
         In (Mfa (EnableFallback a code)) tr ->
         (exists p t, pm = Some p /\ t <> p /\ a = VMethod t)
         /\ String.length code = 6)
  /\ (In (Mfa Codes) tr -> pm = None).
Proof.
  intros tr.
  assert (H0 : stepAt pm AtChoose = Some (step (start pm)))
    by (destruct pm; reflexivity).
  assert (F : forall r, In (Mfa r) tr -> fits pm r).
  { intros r. apply (transcript_fits pm mfa r script (start pm) AtChoose eq_refl H0). }
  split; [|split].
  - intros a code H. exact (F _ H).
  - intros a code H. exact (F _ H).
  - intros H. exact (F _ H).
Qed.

Lemma requests_fit_mode_witness :
  let mfa := Some (service (Resolved tt) (Resolved None)) in
  In (Mfa (EnableFallback (VMethod sms) "000000"))
     (transcript mfa (start (Some app)) [SubmitChoice 0; SubmitCode (Some "000000")])
  /\ String.length "000000" = 6.
Proof.
  assert (H : In (Mfa (EnableFallback (VMethod sms) "000000"))
                 (transcript (Some (service (Resolved tt) (Resolved None)))
                    (start (Some app)) [SubmitChoice 0; SubmitCode (Some "000000")]))
    by (simpl; auto).
  split; [exact H|].
  destruct (requests_fit_mode (Some app)
              (Some (service (Resolved tt) (Resolved None)))
              [SubmitChoice 0; SubmitCode (Some "000000")]) as [_ [F _]].
  exact (proj2 (F (VMethod sms) "000000" H)).
Defined.

Lemma accepted_more (m : MFA.t) (pm : option AuthenticatorType)
    (t : AuthenticatorType) (tr more : Action) :
  accepted m pm t tr -> accepted m pm t (tr ++ more).
Proof.
  intros [code [Hlen H]]. exists code. split; [exact Hlen|].
  destruct pm; destruct H as [Hin Hok]; split; try exact Hok;
    apply in_or_app; left; exact Hin.
Qed.

Ltac newly_accepted :=
  match goal with
  | L : negb (truthy_string ?c) || _ = false |- accepted _ _ _ _ =>
    exists c; split; [exact (passes_six c L)|];
    split; [apply in_or_app; right; simpl; auto|];
    match goal with
    | H : _ = Resolved ?u |- _ => destruct u; exact H
    end
  end.

Ltac verified_is pos :=
  exists pos; split;
  [reflexivity
  | simpl; first [exact I | apply accepted_more; assumption | newly_accepted]].

Ltac find_verified :=
  first [ verified_is AtChoose
        | verified_is (AtSetup app) | verified_is (AtSetup sms)
        | verified_is (AtSetup email)
        | verified_is (AtRecoveryCodes app) | verified_is (AtRecoveryCodes sms)
        | verified_is (AtRecoveryCodes email)
        | verified_is (AtFinish app) | verified_is (AtFinish sms)
        | verified_is (AtFinish email) ].

Lemma interact_verified (m : MFA.t) (pm : option AuthenticatorType)
    (d : Dialog) (pos : Position) (i : Interaction) (tr : Action) :
  primaryMethod d = pm -> stepAt pm pos = Some (step d) ->
  verifiedAt m pm pos tr ->
  exists pos',
    stepAt pm pos' = Some (step (interact (Some m) d i))
    /\ verifiedAt m pm pos' (tr ++ interaction (Some m) d i).
Proof.
  intros Hm Hs Hv. each_position d Hm Hs.
  all: simpl in Hv.
  all: destruct i as [selected|code| | |].
  all: unfold_bodies.
  all: try (destruct selected as [|[|[|selected]]]; simpl).
  all: split_cases.
  all: find_verified.
Qed.

Lemma session_verified (m : MFA.t) (pm : option AuthenticatorType)
    (script : list Interaction) :
  forall (d : Dialog) (pos : Position) (tr : Action),
    primaryMethod d = pm -> stepAt pm pos = Some (step d) ->
    verifiedAt m pm pos tr ->
    exists pos',
      stepAt pm pos' = Some (step (session (Some m) d script))
      /\ verifiedAt m pm pos' (tr ++ transcript (Some m) d script).
Proof.
  induction script as [|i script IH]; intros d pos tr Hm Hs Hv.
  - exists pos. simpl. rewrite app_nil_r. auto.
  - change (session (Some m) d (i :: script))
      with (session (Some m) (interact (Some m) d i) script).
    simpl transcript. rewrite app_assoc.
    destruct (interact_verified m pm d pos i tr Hm Hs Hv) as [pos' [Hs' Hv']].
    apply (IH _ pos'); [|exact Hs'|exact Hv'].
    rewrite interact_primaryMethod. exact Hm.
Qed.

(** X7.  With the adapter in place, a session stands on the
    recovery-codes step or on a final step of method [t] only after the
    service was asked to enable [t] (as the primary method in primary
    mode, as the fallback in fallback mode) with a six-character code and
    accepted it. *)
Theorem verification_precedes (m : MFA.t) (pm : option AuthenticatorType)
    (script : list Interaction) (t : AuthenticatorType) :
  let d := session (Some m) (start pm) script in
  stepAt pm (AtRecoveryCodes t) = Some (step d)
  \/ stepAt pm (AtFinish t) = Some (step d) ->
  accepted m pm t (transcript (Some m) (start pm) script).
Proof.
  intros d H.
  assert (H0 : stepAt pm AtChoose = Some (step (start pm)))
    by (destruct pm; reflexivity).
  destruct (session_verified m pm script (start pm) AtChoose [] eq_refl H0 I)
    as [pos [Hs Hv]].
  destruct H as [H|H];
    pose proof (stepAt_injective pm _ _ _ H Hs) as E; subst pos; exact Hv.
Qed.

Lemma verification_precedes_witness :
  let m := service (Resolved tt) (Resolved None) in
  accepted m None sms
    (transcript (Some m) (start None) [SubmitChoice 1; SubmitCode (Some "482193")]).
Proof.
  apply (verification_precedes (service (Resolved tt) (Resolved None)) None
           [SubmitChoice 1; SubmitCode (Some "482193")] sms).
  left. reflexivity.
Defined.

(** X8.  Without the adapter ([db.mfa] missing) the two [setup] steps
    differ on a six-character code.  In primary mode [db.mfa!.enable]
    throws inside the [try] and, no [onError] being wired, nothing
    happens at all.  In fallback mode [db.mfa?.enableFallback] skips the
    call and the handler goes on as after a success: without any request
    the session moves to the final step of that method. *)
Theorem submit_without_adapter (pm : option AuthenticatorType) (d : Dialog)
    (t : AuthenticatorType) (code : string) :
  primaryMethod d = pm ->
  stepAt pm (AtSetup t) = Some (step d) ->
  String.length code = 6 ->
  match pm with
  | None =>
    interaction None d (SubmitCode (Some code)) = []
    /\ interact None d (SubmitCode (Some code)) = d
  | Some p =>
    interaction None d (SubmitCode (Some code)) = handle d (Next [VMethod t])
    /\ existsb callsAdapter (interaction None d (SubmitCode (Some code))) = false
    /\ step (interact None d (SubmitCode (Some code)))
       = fallbackSteps_finish (VMethod t) (VMethod p)
  end.
Proof.
  intros Hm Hs Hlen.
  destruct d as [pm' s e c]; simpl in Hm, Hs; subst pm'.
  destruct pm as [[| |]|]; destruct t; simpl in Hs; try discriminate;
    injection Hs as <-; unfold_bodies;
    rewrite (six_passes code Hlen); repeat split.
Qed.

Lemma submit_without_adapter_witness :
  let d := session None (start (Some app)) [SubmitChoice 0] in
  stepAt (Some app) (AtSetup sms) = Some (step d)
  /\ step (interact None d (SubmitCode (Some "123456")))
     = fallbackSteps_finish (VMethod sms) (VMethod app).
Proof.
  split; [reflexivity|].
  apply (submit_without_adapter (Some app)
           (session None (start (Some app)) [SubmitChoice 0]) sms "123456"
           eq_refl eq_refl eq_refl).
Defined.

(** ** The buttons of the dialog *)

Lemma buttons_at (pm : option AuthenticatorType) (mfa : option MFA.t)
    (d : Dialog) (pos : Position) :
  primaryMethod d = pm -> stepAt pm pos = Some (step d) ->
  negativeButton (step d)
  = match pos, pm with
    | AtChoose, _ | AtSetup _, Some _ => Some ("Cancel", [OnClose])
    | _, _ => None
    end
  /\ positiveButton (step d)
     = match pos with
       | AtFinish _ => None
       | _ => Some "Continue"
       end
  /\ match pos with
     | AtFinish _ =>
       interaction mfa d Done = [OnClose] /\ closed (interact mfa d Done) = true
     | _ => interaction mfa d Done = []
     end.
Proof.
  intros Hm Hs. each_position d Hm Hs. all: repeat split.
Qed.

(** X9.  Which buttons a session shows.  Cancel is offered on the
    [choose] step and, in fallback mode only, on the [setup] step; the
    primary [setup] step and the recovery-codes step cannot be cancelled.
    Continue is offered everywhere but on the final step, which has
    neither button and is left through Done, which closes the dialog;
    Done does nothing anywhere else. *)
Theorem session_buttons (pm : option AuthenticatorType) (mfa : option MFA.t)
    (script : list Interaction) :
  let d := session mfa (start pm) script in
  exists pos,
    stepAt pm pos = Some (step d)
    /\ negativeButton (step d)
       = match pos, pm with
         | AtChoose, _ | AtSetup _, Some _ => Some ("Cancel", [OnClose])
         | _, _ => None
         end
    /\ positiveButton (step d)
       = match pos with
         | AtFinish _ => None
         | _ => Some "Continue"
         end
    /\ match pos with
       | AtFinish _ =>
         interaction mfa d Done = [OnClose] /\ closed (interact mfa d Done) = true
       | _ => interaction mfa d Done = []
       end.
Proof.
  intros d.
  assert (H0 : stepAt pm AtChoose = Some (step (start pm)))
    by (destruct pm; reflexivity).
  destruct (session_from_position pm mfa script (start pm) AtChoose eq_refl H0)
    as [Hm [pos Hs]].
  exists pos. split; [exact Hs|]. apply buttons_at; assumption.
Qed.

(** ** Fetching recovery codes and the error text *)

(** X10.  Unless the call rejects, a fetch leaves no error text on
    screen, whatever was shown before: with the adapter missing, with an
    answer of [undefined] and with an array, the message the dialog holds
    afterwards is the empty string; step and closed flag are as before.
    The recovery-codes dialog outside the wizard issues the same
    commands. *)
Theorem fetch_hides_error (mfa : option MFA.t) (d : Dialog) (codes : list string) :
  (forall m message, mfa = Some m -> MFA.codes m <> Rejected message) ->
  let d' := exec d (snd (generate mfa (dialogProps d) codes)) in
  error d' = Some ""
  /\ errorShown d' = false
  /\ step d' = step d
  /\ closed d' = closed d
  /\ snd (generate mfa recoveryCodesDialogProps codes)
     = snd (generate mfa (dialogProps d) codes).
Proof.
  intros H d'. subst d'. unfold generate.
  destruct mfa as [m|]; [|repeat split].
  destruct (MFA.codes m) as [[fresh|]|message] eqn:E; try (repeat split; fail).
  destruct (H m message eq_refl E).
Qed.

Lemma fetch_hides_error_witness :
  let m := service (Resolved tt) (Resolved (Some ["k3f9"; "p0x2"])) in
  let d := mkDialog None (steps_recoveryCodes (VMethod app))
             (Some "Network error") false in
  errorShown d = true
  /\ errorShown (exec d (snd (generate (Some m) (dialogProps d) []))) = false.
Proof.
  split; [reflexivity|].
  apply (fetch_hides_error
           (Some (service (Resolved tt) (Resolved (Some ["k3f9"; "p0x2"]))))
           (mkDialog None (steps_recoveryCodes (VMethod app))
              (Some "Network error") false) []).
  intros m message E. injection E as <-. discriminate.
Defined.

(** ** Sending a code by SMS or email *)

Lemma smsStep_stored (phone : string -> Phone.result) (mfa : option MFA.t)
    (seen : list SMSEvent) (st : SetupSMS.state) (ev : SMSEvent) :
  smsStored phone seen st ->
  smsStored phone (seen ++ [ev]) (fst (smsStep phone mfa st ev)).
Proof.
  intros H.
  assert (Keep : forall st',
             SetupSMS.phoneNumber st' = SetupSMS.phoneNumber st ->
             smsStored phone (seen ++ [ev]) st').
  { intros st' E T. rewrite E in T. destruct (H T) as [n [Hin Hn]].
    exists n. rewrite E. split; [apply in_or_app; left; exact Hin|exact Hn]. }
  destruct ev as [number| |]; simpl.
  - unfold SetupSMS.onChange. destruct number as [number|]; [|apply Keep; reflexivity].
    destruct (truthy_string number) eqn:T; simpl; [|apply Keep; reflexivity].
    destruct (Phone.isValid (phone number)) eqn:V.
    + intros _. exists number. simpl. repeat split; try assumption.
      * apply in_or_app. right. left. reflexivity.
      * intros ->. discriminate.
    + intros T'. discriminate.
  - apply Keep. unfold SetupSMS.click, SetupSMS.onClick.
    destruct (SetupSMS.disabled st); [reflexivity|].
    destruct (negb _); [reflexivity|].
    destruct mfa as [m|]; [|reflexivity].
    destruct (MFA.setup m sms _); reflexivity.
  - apply Keep. reflexivity.
Qed.

Lemma smsStep_sends (phone : string -> Phone.result) (mfa : option MFA.t)
    (st : SetupSMS.state) (ev : SMSEvent) (r : MfaRequest) :
  In r (snd (smsStep phone mfa st ev)) ->
  r = Setup sms (SetupSMS.phoneNumber st)
  /\ truthy_opt_string (SetupSMS.phoneNumber st) = true.
Proof.
  destruct ev as [number| |]; simpl; try tauto.
  unfold SetupSMS.click, SetupSMS.onClick.
  destruct (SetupSMS.disabled st); simpl; [tauto|].
  destruct (truthy_opt_string (SetupSMS.phoneNumber st)); simpl; [|tauto].
  destruct mfa as [m|]; simpl; [|tauto].
  destruct (MFA.setup m sms _); simpl; intros [<-|[]]; auto.
Qed.

Lemma smsRun_sends (phone : string -> Phone.result) (mfa : option MFA.t)
    (evs : list SMSEvent) :
  forall (seen : list SMSEvent) (st : SetupSMS.state) (r : MfaRequest),
    smsStored phone seen st ->
    In r (snd (smsRun phone mfa st evs)) ->
    exists n p,
      r = Setup sms (Some p)
      /\ p <> ""
      /\ In (Change (Some n)) (seen ++ evs)
      /\ n <> ""
      /\ Phone.isValid (phone n) = true
      /\ Phone.phoneNumber (phone n) = Some p.
Proof.
  induction evs as [|ev evs IH]; intros seen st r Hst; simpl; [tauto|].
  pose proof (smsStep_stored phone mfa seen st ev Hst) as Hst'.
  pose proof (smsStep_sends phone mfa st ev r) as Hsend.
  destruct (smsStep phone mfa st ev) as [st' sent]. simpl in Hst', Hsend.
  specialize (IH (seen ++ [ev]) st' r Hst').
  destruct (smsRun phone mfa st' evs) as [st'' sent']. simpl in IH |- *.
  intros H. apply in_app_or in H. destruct H as [H|H].
  - destruct (Hsend H) as [-> T]. destruct (Hst T) as [n [Hin [Hn [Hv Hp]]]].
    destruct (SetupSMS.phoneNumber st) as [p|] eqn:E; [|discriminate].
    exists n, p. repeat split; try assumption.
    + intros ->. discriminate.
    + apply in_or_app. left. exact Hin.
  - destruct (IH H) as [n [p [Hr [Hp [Hin Hrest]]]]].
    exists n, p. rewrite <- app_assoc in Hin. auto.
Qed.

(** X11.  Whatever is typed into the phone field, however often the send
    action is clicked and whenever the resend timer elapses, every
    request [SetupSMS] makes is a request to send by SMS to a non-empty
    number that is the validator's normal form of a non-empty input
    typed before and accepted by the validator: raw input is never
    sent. *)
Theorem sms_sends_validated_numbers (phone : string -> Phone.result)
    (mfa : option MFA.t) (enabled : bool) (evs : list SMSEvent) (r : MfaRequest) :
  In r (snd (smsRun phone mfa (SetupSMS.initial enabled) evs)) ->
  exists n p,
    r = Setup sms (Some p)
    /\ p <> ""
    /\ In (Change (Some n)) evs
    /\ n <> ""
    /\ Phone.isValid (phone n) = true
    /\ Phone.phoneNumber (phone n) = Some p.
Proof.
  apply (smsRun_sends phone mfa evs [] (SetupSMS.initial enabled) r).
  intros T. discriminate.
Qed.

Lemma sms_sends_validated_numbers_witness :
  let mfa := Some (service (Resolved tt) (Resolved None)) in
  let evs := [Change (Some "+1415555"); Change (Some "+14155552671"); Click] in
  snd (smsRun e164 mfa (SetupSMS.initial true) evs)
  = [Setup sms (Some "+14155552671")]
  /\ exists n p,
       Setup sms (Some "+14155552671") = Setup sms (Some p)
       /\ p <> ""
       /\ In (Change (Some n)) evs
       /\ n <> ""
       /\ Phone.isValid (e164 n) = true
       /\ Phone.phoneNumber (e164 n) = Some p.
Proof.
  split; [reflexivity|].
  apply (sms_sends_validated_numbers e164
           (Some (service (Resolved tt) (Resolved None))) true
           [Change (Some "+1415555"); Change (Some "+14155552671"); Click]).
  simpl. auto.
Defined.

(** X12.  The send action of [SetupSMS].  While it is disabled a click
    sends nothing and changes nothing.  When it is enabled and a number
    is stored, a click makes one request for that number; if the request
    resolves the action is disabled afterwards (the timer flag is off),
    and if it rejects the message is stored and, when it is not empty,
    disables the action as well, so the same number cannot be retried
    until the field is edited.  The stored number is untouched either
    way. *)
Theorem sms_send_action (m : MFA.t) (st : SetupSMS.state) :
  (SetupSMS.disabled st = true -> SetupSMS.click (Some m) st = (st, []))
  /\ (SetupSMS.disabled st = false ->
      truthy_opt_string (SetupSMS.phoneNumber st) = true ->
      let st' := fst (SetupSMS.click (Some m) st) in
      snd (SetupSMS.click (Some m) st) = [Setup sms (SetupSMS.phoneNumber st)]
      /\ SetupSMS.phoneNumber st' = SetupSMS.phoneNumber st
      /\ SetupSMS.isSending st' = false
      /\ match MFA.setup m sms (SetupSMS.phoneNumber st) with
         | Resolved _ =>
           SetupSMS.enabled st' = false
           /\ SetupSMS.error st' = SetupSMS.error st
           /\ SetupSMS.click (Some m) st' = (st', [])
         | Rejected message =>
           SetupSMS.error st' = Some message
           /\ SetupSMS.enabled st' = SetupSMS.enabled st
           /\ (message <> "" -> SetupSMS.click (Some m) st' = (st', []))
         end).
Proof.
  split.
  - intros H. unfold SetupSMS.click. rewrite H. reflexivity.
  - intros Hd Hp st'. subst st'. unfold SetupSMS.click, SetupSMS.onClick.
    rewrite Hd, Hp. simpl.
    destruct (MFA.setup m sms (SetupSMS.phoneNumber st)) as [u|message];
      simpl; repeat split.
    + unfold SetupSMS.disabled. simpl. rewrite !orb_true_r. reflexivity.
    + intros Hne. unfold SetupSMS.disabled. simpl.
      destruct message; [contradiction|reflexivity].
Qed.

Lemma sms_send_action_witness :
  let m := service (Rejected "Too many requests") (Resolved None) in
  let st := SetupSMS.onChange e164 (SetupSMS.initial true) (Some "+14155552671") in
  SetupSMS.disabled st = false
  /\ truthy_opt_string (SetupSMS.phoneNumber st) = true
  /\ snd (SetupSMS.click (Some m) st) = [Setup sms (Some "+14155552671")].
Proof.
  split; [reflexivity|]. split; [reflexivity|].
  apply (proj2 (sms_send_action (service (Rejected "Too many requests") (Resolved None))
                  (SetupSMS.onChange e164 (SetupSMS.initial true)
                     (Some "+14155552671")))
           eq_refl eq_refl).
Defined.

(** X13.  The send button of [SetupEmail].  While it is disabled a click
    sends nothing and changes nothing.  Otherwise a click makes one
    request to send by email, without a number; if the request resolves
    the button is disabled afterwards, and if it rejects the message is
    stored while the button stays enabled: unlike the SMS form, the
    request can be retried at once. *)
Theorem email_send_button (m : MFA.t) (st : SetupEmail.state) :
  (SetupEmail.disabled st = true -> SetupEmail.click (Some m) st = (st, []))
  /\ (SetupEmail.disabled st = false ->
      let st' := fst (SetupEmail.click (Some m) st) in
      snd (SetupEmail.click (Some m) st) = [Setup email None]
      /\ match MFA.setup m email None with
         | Resolved _ =>
           SetupEmail.disabled st' = true
           /\ SetupEmail.error st' = SetupEmail.error st
         | Rejected message =>
           SetupEmail.error st' = Some message
           /\ SetupEmail.disabled st' = false
           /\ snd (SetupEmail.click (Some m) st') = [Setup email None]
         end).
Proof.
  split.
  - intros H. unfold SetupEmail.click. rewrite H. reflexivity.
  - destruct st as [sending message0 timer]. unfold SetupEmail.disabled. simpl.
    intros Hd. destruct sending, timer; try discriminate.
    unfold SetupEmail.click, SetupEmail.disabled, SetupEmail.onClick. simpl.
    destruct (MFA.setup m email None) as [u|message] eqn:E; simpl;
      rewrite ?E; repeat split.
Qed.

Lemma email_send_button_witness :
  let m := service (Rejected "Too many requests") (Resolved None) in
  SetupEmail.disabled (SetupEmail.initial true) = false
  /\ snd (SetupEmail.click (Some m) (SetupEmail.initial true)) = [Setup email None].
Proof.
  split; [reflexivity|].
  apply (proj2 (email_send_button
                  (service (Rejected "Too many requests") (Resolved None))
                  (SetupEmail.initial true)) eq_refl).
Defined.

(** ** The exported text *)

Lemma append_empty (s : string) : (s ++ "")%string = s.
Proof. induction s as [|a s IH]; simpl; [reflexivity|]. rewrite IH. reflexivity. Qed.

Lemma append_assoc (a b c : string) :
  ((a ++ b) ++ c)%string = (a ++ (b ++ c))%string.
Proof. induction a as [|x a IH]; simpl; [reflexivity|]. rewrite IH. reflexivity. Qed.

Lemma linesFrom_app (c : string) :
  hasLineFeed c = false ->
  forall current text,
    linesFrom current (c ++ text)%string = linesFrom (current ++ c)%string text.
Proof.
  induction c as [|a c IH]; simpl; intros H current text.
  - rewrite append_empty. reflexivity.
  - apply orb_false_iff in H as [Ha Hc]. rewrite Ha. rewrite (IH Hc).
    rewrite append_assoc. reflexivity.
Qed.

Lemma lines_exportText (c : string) (codes : list string) :
  Forall (fun c => hasLineFeed c = false) (c :: codes) ->
  lines (exportText (c :: codes)) = c :: codes.
Proof.
  revert c. induction codes as [|c' codes IH]; intros c H.
  - inversion H as [|? ? Hc _]; subst. unfold lines, exportText. simpl.
    transitivity (linesFrom "" (c ++ "")).
    + rewrite append_empty. reflexivity.
    + rewrite (linesFrom_app c Hc). reflexivity.
  - inversion H as [|? ? Hc Hrest]; subst.
    unfold lines, exportText.
    change (String.concat newline (c :: c' :: codes))
      with (c ++ newline ++ String.concat newline (c' :: codes))%string.
    rewrite (linesFrom_app c Hc). simpl. f_equal.
    apply (IH c' Hrest).
Qed.

(** X14.  The text that Copy and Download hand over holds one code per
    line: for at least one code, none containing a line feed, splitting
    the text at line feeds gives back the codes, in order.  With no
    codes on screen the text is empty. *)
Theorem exportText_lines (codes : list string) :
  codes <> [] ->
  Forall (fun c => hasLineFeed c = false) codes ->
  lines (exportText codes) = codes
  /\ length (lines (exportText codes)) = length codes
  /\ exportText [] = "".
Proof.
  intros Hne H. destruct codes as [|c codes]; [contradiction|].
  rewrite (lines_exportText c codes H). repeat split.
Qed.

Lemma exportText_lines_witness :
  exportText ["k3f9"; "p0x2"; "m7q1"]
  = ("k3f9" ++ newline ++ "p0x2" ++ newline ++ "m7q1")%string
  /\ lines (exportText ["k3f9"; "p0x2"; "m7q1"]) = ["k3f9"; "p0x2"; "m7q1"].
Proof.
  split; [reflexivity|].
  apply (exportText_lines ["k3f9"; "p0x2"; "m7q1"]).
  - discriminate.
  - repeat constructor.
Defined.

(** ** Choosing a method *)

(** X15.  Continue on a [choose] step with the [i]-th method on offer
    selected: the catalog has an entry for that method, and the session
    moves to the [setup] step of the mode for it, whose title and
    description are the entry's title and subtitle.  Message and closed
    flag are untouched. *)
Theorem choice_in_range (pm : option AuthenticatorType) (mfa : option MFA.t)
    (e : option string) (c : bool) (i : nat) (t : AuthenticatorType) :
  let d := mkDialog pm (initialStep pm) e c in
  nth_error (offered d) i = Some t ->
  let d' := interact mfa d (SubmitChoice i) in
  stepAt pm (AtSetup t) = Some (step d')
  /\ (exists auth,
         In auth Authenticators
         /\ Authenticator.type auth = t
         /\ findAuthenticator t = VAuthenticator auth
         /\ Step.title (step d') = Some (Authenticator.title auth)
         /\ Step.description (step d') = Some (Authenticator.subtitle auth))
  /\ error d' = e
  /\ closed d' = c.
Proof.
  intros d H d'. subst d d'.
  destruct pm as [[| |]|]; destruct i as [|[|[|i]]]; simpl in H;
    try (destruct i; discriminate); try discriminate; injection H as <-.
  all: split; [reflexivity|]; split; [|split; reflexivity].
  all: eexists; split; [|repeat split]; simpl; auto.
Qed.

Lemma choice_in_range_witness :
  stepAt (Some sms) (AtSetup email)
  = Some (step (interact None (start (Some sms)) (SubmitChoice 1))).
Proof.
  apply (choice_in_range (Some sms) None None false 1 email eq_refl).
Defined.

(** ** What the step bodies never do *)

Ltac closed_is pos H :=
  exists pos; split;
  [reflexivity
  | simpl; let Hc := fresh in
    intros Hc;
    first [eexists; reflexivity | destruct (H Hc) as [? ?]; discriminate]].

Ltac find_closed H :=
  first [ closed_is AtChoose H
        | closed_is (AtSetup app) H | closed_is (AtSetup sms) H
        | closed_is (AtSetup email) H
        | closed_is (AtRecoveryCodes app) H | closed_is (AtRecoveryCodes sms) H
        | closed_is (AtRecoveryCodes email) H
        | closed_is (AtFinish app) H | closed_is (AtFinish sms) H
        | closed_is (AtFinish email) H ].

Lemma interact_closed (pm : option AuthenticatorType) (mfa : option MFA.t)
    (d : Dialog) (pos : Position) (i : Interaction) :
  primaryMethod d = pm -> stepAt pm pos = Some (step d) ->
  (closed d = true -> exists t, pos = AtFinish t) ->
  exists pos',
    stepAt pm pos' = Some (step (interact mfa d i))
    /\ (closed (interact mfa d i) = true -> exists t, pos' = AtFinish t).
Proof.
  intros Hm Hs Hc. each_position d Hm Hs.
  all: simpl in Hc.
  all: destruct i as [selected|code| | |].
  all: unfold_bodies.
  all: try (destruct selected as [|[|[|selected]]]; simpl).
  all: split_cases.
  all: find_closed Hc.
Qed.

Lemma session_closed (pm : option AuthenticatorType) (mfa : option MFA.t)
    (script : list Interaction) :
  forall (d : Dialog) (pos : Position),
    primaryMethod d = pm -> stepAt pm pos = Some (step d) ->
    (closed d = true -> exists t, pos = AtFinish t) ->
    exists pos',
      stepAt pm pos' = Some (step (session mfa d script))
      /\ (closed (session mfa d script) = true -> exists t, pos' = AtFinish t).
Proof.
  induction script as [|i script IH]; intros d pos Hm Hs Hc.
  - exists pos. auto.
  - change (session mfa d (i :: script))
      with (session mfa (interact mfa d i) script).
    destruct (interact_closed pm mfa d pos i Hm Hs Hc) as [pos' [Hs' Hc']].
    apply (IH _ pos'); [|exact Hs'|exact Hc'].
    rewrite interact_primaryMethod. exact Hm.
Qed.

(** X16.  The step bodies close the dialog on the final step only: when
    a session driven through them has called [onClose], it stands on a
    final step. *)
Theorem bodies_close_on_finish (pm : option AuthenticatorType)
    (mfa : option MFA.t) (script : list Interaction) :
  let d := session mfa (start pm) script in
  closed d = true ->
  exists t, stepAt pm (AtFinish t) = Some (step d).
Proof.
  intros d H.
  assert (H0 : stepAt pm AtChoose = Some (step (start pm)))
    by (destruct pm; reflexivity).
  destruct (session_closed pm mfa script (start pm) AtChoose eq_refl H0)
    as [pos [Hs Hc]]; [discriminate|].
  destruct (Hc H) as [t ->]. exists t. exact Hs.
Qed.

Lemma bodies_close_on_finish_witness :
  let mfa := Some (service (Resolved tt) (Resolved None)) in
  let d := session mfa (start (Some app))
             [SubmitChoice 0; SubmitCode (Some "482193"); Done] in
  closed d = true
  /\ exists t, stepAt (Some app) (AtFinish t) = Some (step d).
Proof.
  split; [reflexivity|].
  apply (bodies_close_on_finish (Some app)
           (Some (service (Resolved tt) (Resolved None)))
           [SubmitChoice 0; SubmitCode (Some "482193"); Done]).
  reflexivity.
Defined.

Lemma interaction_sets_error (pm : option AuthenticatorType) (mfa : option MFA.t)
    (d : Dialog) (pos : Position) (i : Interaction) (message : string) :
  primaryMethod d = pm -> stepAt pm pos = Some (step d) ->
  In (SetError message) (interaction mfa d i) ->
  i = Generate /\ pm = None /\ exists t, pos = AtRecoveryCodes t.
Proof.
  intros Hm Hs. each_position d Hm Hs.
  all: destruct i as [selected|code| | |].
  all: unfold_bodies.
  all: try (destruct selected as [|[|[|selected]]]; simpl).
  all: split_cases.
  all: simpl; intuition (try discriminate); eauto.
Qed.

Lemma session_error_fallback (p : AuthenticatorType) (mfa : option MFA.t)
    (script : list Interaction) :
  forall (d : Dialog) (pos : Position),
    primaryMethod d = Some p -> stepAt (Some p) pos = Some (step d) ->
    error (session mfa d script) = error d.
Proof.
  induction script as [|i script IH]; intros d pos Hm Hs; [reflexivity|].
  change (session mfa d (i :: script))
    with (session mfa (interact mfa d i) script).
  destruct (interact_position (Some p) mfa d pos i Hm Hs) as [pos' [Hs' _]].
  rewrite (IH _ pos'); [|rewrite interact_primaryMethod; exact Hm|exact Hs'].
  unfold interact. apply exec_error_frame.
  destruct (existsb setsError (interaction mfa d i)) eqn:E; [|reflexivity].
  apply existsb_exists in E. destruct E as [[]  [Hin Hx]]; try discriminate.
  destruct (interaction_sets_error (Some p) mfa d pos i _ Hm Hs Hin)
    as [_ [Hn _]]. discriminate.
Qed.

(** X17.  The only interaction that sets the dialog's message is a fetch
    on the recovery-codes step, in primary mode.  No body of a fallback
    session is handed [onError] or calls it: a fallback session never
    holds a message, whatever the service answers. *)
Theorem message_only_from_fetch (pm : option AuthenticatorType)
    (mfa : option MFA.t) (script : list Interaction) :
  let d := session mfa (start pm) script in
  (forall i message,
      In (SetError message) (interaction mfa d i) ->
      i = Generate /\ pm = None
      /\ exists t, stepAt pm (AtRecoveryCodes t) = Some (step d))
  /\ (pm <> None -> error d = None).
Proof.
  intros d.
  assert (H0 : stepAt pm AtChoose = Some (step (start pm)))
    by (destruct pm; reflexivity).
  destruct (session_from_position pm mfa script (start pm) AtChoose eq_refl H0)
    as [Hm [pos Hs]].
  split.
  - intros i message H.
    destruct (interaction_sets_error pm mfa d pos i message Hm Hs H)
      as [Hi [Hn [t ->]]].
    split; [exact Hi|]. split; [exact Hn|]. exists t. exact Hs.
  - intros Hne. destruct pm as [p|]; [|contradiction].
    apply (session_error_fallback p mfa script (start (Some p)) AtChoose eq_refl H0).
Qed.

Lemma message_only_from_fetch_witness :
  let mfa := Some (service (Resolved tt) (Rejected "Network error")) in
  let d := session mfa (start None) [SubmitChoice 0; SubmitCode (Some "482193")] in
  In (SetError "Network error") (interaction mfa d Generate)
  /\ exists t, stepAt None (AtRecoveryCodes t) = Some (step d).
Proof.
  assert (H : In (SetError "Network error")
                 (interaction (Some (service (Resolved tt) (Rejected "Network error")))
                    (session (Some (service (Resolved tt) (Rejected "Network error")))
                       (start None) [SubmitChoice 0; SubmitCode (Some "482193")])
                    Generate))
    by (simpl; auto).
  split; [exact H|].
  destruct (message_only_from_fetch None
              (Some (service (Resolved tt) (Rejected "Network error")))
              [SubmitChoice 0; SubmitCode (Some "482193")]) as [F _].
  exact (proj2 (proj2 (F Generate "Network error" H))).
Defined.

(** ** The controller on arbitrary events *)

Lemma onNext_primary (s : Step.t) (args : list Value) :
  primaryStep s = true ->
  forall s', In (SetStep s') (onNext None s args) ->
             primaryStep s' = true /\ rank s' = S (rank s).
Proof.
  unfold primaryStep at 1, onNext, rank, origin. intros H s'.
  destruct (Step.component s) as [[| | | | | |]|]; try discriminate;
    destruct (Step.next s) as [[| | |]|]; try discriminate; simpl.
  - change (invoke (nextStepCall None setup args)) with (steps_setup (arg 0 args)).
    unfold steps_setup.
    destruct (arg 0 args); simpl;
      intros [E|[E|[]]]; try discriminate; injection E as <-; split; reflexivity.
  - intros [E|[E|[]]]; try discriminate; injection E as <-; split; reflexivity.
  - intros [E|[E|[]]]; try discriminate; injection E as <-; split; reflexivity.
  - intros [E|[]]; discriminate.
Qed.

Lemma onNext_fallback_rank (m : AuthenticatorType) (s : Step.t) (args : list Value) :
  fallbackStep s = true ->
  forall s', In (SetStep s') (onNext (Some m) s args) -> rank s' = S (rank s).
Proof.
  unfold fallbackStep, onNext, rank, origin. intros H s'.
  destruct (Step.component s) as [[| | | | | |]|]; try discriminate;
    destruct (Step.next s) as [[| | |]|]; try discriminate; simpl.
  - change (invoke (nextStepCall (Some m) setup args))
      with (fallbackSteps_setup (arg 0 (args ++ [VMethod m]))).
    unfold fallbackSteps_setup.
    destruct (arg 0 (args ++ [VMethod m])); simpl;
      intros [E|[E|[]]]; try discriminate; injection E as <-; reflexivity.
  - intros [E|[E|[]]]; try discriminate; injection E as <-; reflexivity.
  - intros [E|[]]; discriminate.
Qed.

Lemma onNext_ofMode (pm : option AuthenticatorType) (s : Step.t)
    (args : list Value) :
  ofMode pm s = true ->
  forall s', In (SetStep s') (onNext pm s args) ->
             ofMode pm s' = true /\ rank s' = S (rank s).
Proof.
  destruct pm as [m|]; simpl; intros H s' Hin.
  - split.
    + exact (onNext_fallback m s args H s' Hin).
    + exact (onNext_fallback_rank m s args H s' Hin).
  - exact (onNext_primary s args H s' Hin).
Qed.

Lemma exec_step_cases (a : Action) :
  forall d : Dialog,
    step (exec d a) = step d \/ In (SetStep (step (exec d a))) a.
Proof.
  induction a as [|e a IH]; intros d; [left; reflexivity|].
  change (exec d (e :: a)) with (exec (exec1 d e) a).
  destruct (IH (exec1 d e)) as [H|H].
  - rewrite H. destruct e; simpl; auto.
  - right. right. exact H.
Qed.

Lemma handle_SetStep (d : Dialog) (ev : Event) (s' : Step.t) :
  In (SetStep s') (handle d ev) ->
  exists args, In (SetStep s') (onNext (primaryMethod d) (step d) args).
Proof.
  destruct ev as [args|message| |]; simpl.
  - intros H. exists args. exact H.
  - intros [E|[]]; discriminate.
  - intros [E|[]]; discriminate.
  - unfold negativeButton. destruct (truthy_opt_bool _); simpl.
    + intros [E|[]]; discriminate.
    + intros [].
Qed.

Lemma dispatch_ofMode (pm : option AuthenticatorType) (d : Dialog) (ev : Event) :
  primaryMethod d = pm -> ofMode pm (step d) = true ->
  primaryMethod (dispatch d ev) = pm
  /\ ofMode pm (step (dispatch d ev)) = true
  /\ (step (dispatch d ev) = step d
      \/ rank (step (dispatch d ev)) = S (rank (step d))).
Proof.
  intros Hm Hs. unfold dispatch. split; [rewrite exec_primaryMethod; exact Hm|].
  destruct (exec_step_cases (handle d ev) d) as [H|H].
  - rewrite H. auto.
  - apply handle_SetStep in H. destruct H as [args H]. rewrite Hm in H.
    destruct (onNext_ofMode pm (step d) args Hs _ H) as [Ho Hr]. auto.
Qed.

Lemma run_ofMode (pm : option AuthenticatorType) (evs : list Event) :
  forall d : Dialog,
    primaryMethod d = pm -> ofMode pm (step d) = true ->
    primaryMethod (run d evs) = pm /\ ofMode pm (step (run d evs)) = true.
Proof.
  induction evs as [|ev evs IH]; intros d Hm Hs; [auto|].
  change (run d (ev :: evs)) with (run (dispatch d ev) evs).
  destruct (dispatch_ofMode pm d ev Hm Hs) as [Hm' [Hs' _]].
  apply IH; assumption.
Qed.

Lemma ofMode_rank (pm : option AuthenticatorType) (s : Step.t) :
  ofMode pm s = true ->
  rank s <= match pm with Some _ => 2 | None => 3 end
  /\ (Step.next s = None <->
      rank s = match pm with Some _ => 2 | None => 3 end).
Proof.
  destruct pm as [m|]; simpl; unfold fallbackStep, primaryStep, rank, origin;
    destruct (Step.component s) as [[| | | | | |]|]; try discriminate;
    destruct (Step.next s) as [[| | |]|]; try discriminate; intros _;
    (split; [lia|split; intros H; try discriminate; try lia; reflexivity]).
Qed.

(** X18.  The controller on events of any kind and with any forwarded
    arguments, well typed or not.  The mode never changes and the
    descriptor always comes from the registry of the mode; an event
    either leaves the descriptor as it is or moves exactly one step
    along that registry, never back; a primary session is at most three
    and a fallback session at most two steps from its start, and it has
    no successor key exactly when it is that far. *)
Theorem controller_moves_forward (pm : option AuthenticatorType)
    (evs : list Event) (ev : Event) :
  let d := run (start pm) evs in
  let bound := match pm with Some _ => 2 | None => 3 end in
  primaryMethod d = pm
  /\ ofMode pm (step d) = true
  /\ (step (dispatch d ev) = step d
      \/ rank (step (dispatch d ev)) = S (rank (step d)))
  /\ rank (step d) <= bound
  /\ (Step.next (step d) = None <-> rank (step d) = bound).
Proof.
  intros d bound.
  assert (H0 : ofMode pm (step (start pm)) = true) by (destruct pm; reflexivity).
  destruct (run_ofMode pm evs (start pm) eq_refl H0) as [Hm Hs].
  destruct (dispatch_ofMode pm d ev Hm Hs) as [_ [_ Hr]].
  destruct (ofMode_rank pm (step d) Hs) as [Hb Hn].
  auto.
Qed.
